(** * ApiPort MCP server: the API client (api_client.py)

    A shallow embedding of [ApiPortClient]: its constructor, the
    credential manager [_get_token], the request dispatcher [_request]
    and the domain methods built on it, followed by the properties of
    the credential lifecycle and of request dispatch.

    Conventions.
    - Python values are the inductive [value]; a [dict] is a [gmap]
      from strings to values.
    - A [datetime] is an integer number of microseconds (the resolution
      of Python's datetime); a [timedelta] is a difference of such
      numbers.  The year range of datetime is not modelled.
    - The world outside the program (the clock read by [datetime.now()]
      and the remote server reached through httpx) is an [Env]: both
      answer as a function of everything that happened before.
    - Every interaction with the world is recorded in a history, a list
      of [event]s whose head is the most recent one. *)

From Stdlib Require Import ZArith String Ascii List Floats.SpecFloat.
From stdpp Require Import gmap strings list fin_maps pretty.

Local Open Scope string_scope.
Local Open Scope Z_scope.

(* ===================================================================== *)
(** ** Python values, truthiness, exceptions *)
(* ===================================================================== *)

(** What [json.loads] can produce and what the client stores and sends:
    [None], booleans, integers, floats, strings, lists and dicts. *)
#[warnings="-register-all"]
Inductive value : Type :=
| VNone
| VBool (b : bool)
| VInt (n : Z)
| VFloat (f : spec_float)
| VStr (s : string)
| VList (l : list value)
| VDict (d : gmap string value).

(** Python's truth value testing ([if x:], [x or y], [not x]). *)
Definition truthy (v : value) : bool :=
  match v with
  | VNone => false
  | VBool b => b
  | VInt n => negb (n =? 0)
  | VFloat (S754_zero _) => false
  | VFloat _ => true
  | VStr s => negb (String.eqb s "")
  | VList [] => false
  | VList (_ :: _) => true
  | VDict d => negb (bool_decide (size d = 0%nat))
  end.

(** ASCII case folding; bytes outside [A-Z] are left alone, which is all
    that a comparison of [s.lower()] with an ASCII literal can observe. *)
Definition lower_ascii (c : ascii) : ascii :=
  let n := nat_of_ascii c in
  if ((65 <=? n) && (n <=? 90))%nat then ascii_of_nat (n + 32) else c.

Fixpoint lower (s : string) : string :=
  match s with
  | EmptyString => EmptyString
  | String c s' => String (lower_ascii c) (lower s')
  end.

(** The httpx transport failures: the call itself did not complete. *)
Inductive transport_failure : Type :=
| ConnectError      (* name resolution failed, connection refused *)
| ConnectTimeout
| ReadTimeout
| WriteTimeout
| PoolTimeout
| ReadError
| WriteError
| ProtocolError.

(** An HTTP request as the client builds it.  [verify] is the setting of
    the [httpx.AsyncClient] the request is sent with. *)
Record Request : Type := mkRequest {
  verify : bool;
  method : string;
  url : string;
  headers : list (string * string);
  json : option value;
  params : option value
}.

(** What the server answers: status, raw body, and what
    [response.json()] yields for that body ([None] when the body is not
    JSON and [response.json()] raises). *)
Record Reply : Type := mkReply {
  status_code : Z;
  content : string;
  decoded : option value
}.

(** How a call ends: with an answer, or without one. *)
Inductive Outcome : Type :=
| Responded (r : Reply)
| Failed (f : transport_failure).

(** httpx's [Response] object: the answer together with the request it
    answers. *)
Record Response : Type := mkResponse {
  request : Request;
  reply : Reply
}.

(** The exceptions that api_client.py and the library calls it makes can
    raise. *)
Inductive exn : Type :=
| ValueError (msg : string)
| KeyError (key : string)
| TypeError
| AttributeError
| JSONDecodeError
| HTTPStatusError (response : Response)
| TransportError (f : transport_failure) (request : Request).

Inductive result (A : Type) : Type :=
| Ok (a : A)
| Raised (e : exn).
Arguments Ok {A} a.
Arguments Raised {A} e.

(** [data[key]] for a string key. *)
Definition getitem (data : value) (key : string) : result value :=
  match data with
  | VDict d => match d !! key with
               | Some v => Ok v
               | None => Raised (KeyError key)
               end
  | _ => Raised TypeError
  end.

(** [data.get(key, default)]. *)
Definition dict_get (data : value) (key : string) (default : value)
  : result value :=
  match data with
  | VDict d => match d !! key with
               | Some v => Ok v
               | None => Ok default
               end
  | _ => Raised AttributeError
  end.

(** httpx's [Response.is_success]: [raise_for_status] raises unless it
    holds. *)
Definition is_success (r : Reply) : bool :=
  (200 <=? status_code r) && (status_code r <=? 299).

(** [timedelta(minutes=n)], [timedelta(hours=n)] in microseconds. *)
Definition minutes (n : Z) : Z := n * 60000000.
Definition hours (n : Z) : Z := n * 3600000000.

(* ===================================================================== *)
(** ** The world: clock and server *)
(* ===================================================================== *)

Inductive event : Type :=
| Now (t : Z)                          (* datetime.now() returned t *)
| Call (req : Request) (out : Outcome). (* req was sent and ended in out *)

(** [py_str] is Python's [str()] on the values whose text form is not
    spelled out in [format_value] below. *)
Record Env : Type := mkEnv {
  clock : list event -> Z;
  server : list event -> Request -> Outcome;
  py_str : value -> string
}.

(** The requests sent so far, most recent first. *)
Fixpoint calls (h : list event) : list Request :=
  match h with
  | [] => []
  | Now _ :: h' => calls h'
  | Call req _ :: h' => req :: calls h'
  end.

(* ===================================================================== *)
(** ** The client object *)
(* ===================================================================== *)

Record Client : Type := mkClient {
  api_url : string;
  email : string;
  password : string;
  verify_ssl : bool;
  access_token : value;
  refresh_token : value;
  token_expires_at : option Z
}.

Definition set_access_token (v : value) (c : Client) : Client :=
  mkClient (api_url c) (email c) (password c) (verify_ssl c)
           v (refresh_token c) (token_expires_at c).

Definition set_refresh_token (v : value) (c : Client) : Client :=
  mkClient (api_url c) (email c) (password c) (verify_ssl c)
           (access_token c) v (token_expires_at c).

Definition set_token_expires_at (t : option Z) (c : Client) : Client :=
  mkClient (api_url c) (email c) (password c) (verify_ssl c)
           (access_token c) (refresh_token c) t.

(** The credential state of section 3 of the specification. *)
Definition credential_state (c : Client) : value * value * option Z :=
  (access_token c, refresh_token c, token_expires_at c).

(** [a or b] where [a] is an optional string. *)
Definition or_else (a b : option string) : option string :=
  match a with
  | Some s => if String.eqb s "" then b else Some s
  | None => b
  end.

(** [os.getenv(key)] and [os.getenv(key, fallback)]. *)
Definition getenv (environ : gmap string string) (key : string)
  : option string := environ !! key.

Definition getenv_or (environ : gmap string string) (key fallback : string)
  : string := default fallback (environ !! key).

(** [ApiPortClient.__init__]; [environ] is the process environment.  The
    attributes are assigned in the order of the source, and the object
    exists only when the final check does not raise. *)
Definition __init__ (environ : gmap string string)
    (api_url email password : option string) (verify_ssl : bool)
  : result Client :=
  let api_url :=
    or_else api_url
            (Some (getenv_or environ "APIPORT_API_URL"
                             "https://api.apiport.hu")) in
  let email := or_else email (getenv environ "APIPORT_EMAIL") in
  let password := or_else password (getenv environ "APIPORT_PASSWORD") in
  let verify_ssl :=
    if verify_ssl then verify_ssl
    else String.eqb (lower (getenv_or environ "VERIFY_SSL" "true")) "true" in
  (* [not x] holds exactly when [x or None] is [None] *)
  match api_url, or_else email None, or_else password None with
  | Some api_url, Some email, Some password =>
      Ok (mkClient api_url email password verify_ssl VNone VNone None)
  | _, _, _ =>
      Raised (ValueError "APIPORT_EMAIL and APIPORT_PASSWORD must be set")
  end.

(* ===================================================================== *)
(** ** The monad of the client's methods *)
(* ===================================================================== *)

(** A method reads and mutates [self], interacts with the world, and
    returns or raises.  Mutations made before a raise persist. *)
Definition M (A : Type) : Type :=
  Client -> list event -> result A * Client * list event.

Definition ret {A} (a : A) : M A := fun c h => (Ok a, c, h).

Definition raise {A} (e : exn) : M A := fun c h => (Raised e, c, h).

Definition bind {A B} (m : M A) (k : A -> M B) : M B :=
  fun c h =>
    match m c h with
    | (Ok a, c', h') => k a c' h'
    | (Raised e, c', h') => (Raised e, c', h')
    end.

Definition lift {A} (r : result A) : M A := fun c h => (r, c, h).

Definition get_self : M Client := fun c h => (Ok c, c, h).

Definition modify_self (f : Client -> Client) : M unit :=
  fun c h => (Ok tt, f c, h).

Declare Scope method_scope.
Delimit Scope method_scope with method.
Notation "x <- m ;; k" := (bind m (fun x => k))
  (at level 100, m at next level, right associativity) : method_scope.
Notation "m ;;; k" := (bind m (fun _ => k))
  (at level 100, right associativity) : method_scope.
Local Open Scope method_scope.

Section Methods.
Variable E : Env.

(** [datetime.now()] *)
Definition now : M Z :=
  fun c h => let t := clock E h in (Ok t, c, Now t :: h).

(** [async with httpx.AsyncClient(verify=self.verify_ssl) as client:
     await client.request(...)] *)
Definition send (method url : string) (headers : list (string * string))
    (json params : option value) : M Response :=
  fun c h =>
    let req := mkRequest (verify_ssl c) method url headers json params in
    let out := server E h req in
    match out with
    | Responded r => (Ok (mkResponse req r), c, Call req out :: h)
    | Failed f => (Raised (TransportError f req), c, Call req out :: h)
    end.

(** [response.raise_for_status()]; the exception carries the
    response. *)
Definition raise_for_status (r : Response) : M unit :=
  if is_success (reply r) then ret tt else raise (HTTPStatusError r).

(** [response.json()] *)
Definition response_json (r : Response) : M value :=
  match decoded (reply r) with
  | Some v => ret v
  | None => raise JSONDecodeError
  end.

(** The text an f-string puts in place of [{v}]. *)
Definition format_value (v : value) : string :=
  match v with
  | VStr s => s
  | VNone => "None"
  | VBool true => "True"
  | VBool false => "False"
  | VInt n => pretty n
  | _ => py_str E v
  end.

Definition login_url (c : Client) : string :=
  api_url c +:+ "/api/accounts/token/".

Definition login_body (c : Client) : value :=
  VDict {[ "email" := VStr (email c); "password" := VStr (password c) ]}.

(** [ApiPortClient._get_token] *)
Definition _get_token : M value :=
  self <- get_self ;;
  valid <- (if truthy (access_token self) then
              match token_expires_at self with
              | Some expires_at =>
                  t <- now ;;
                  ret (bool_decide (t < expires_at - minutes 5))
              | None => ret false
              end
            else ret false) ;;
  if valid then ret (access_token self)
  else
    response <- send "POST" (login_url self) [] (Some (login_body self))
                     None ;;
    raise_for_status response ;;;
    data <- response_json response ;;
    access <- lift (getitem data "access") ;;
    modify_self (set_access_token access) ;;;
    refresh <- lift (dict_get data "refresh" VNone) ;;
    modify_self (set_refresh_token refresh) ;;;
    t <- now ;;
    modify_self (set_token_expires_at (Some (t + hours 1))) ;;;
    self <- get_self ;;
    ret (access_token self).

(** [ApiPortClient._request] *)
Definition _request (method endpoint : string)
    (json params : option value) : M value :=
  token <- _get_token ;;
  self <- get_self ;;
  response <- send method
                   (api_url self +:+ "/api/tracker/" +:+ endpoint)
                   [("Authorization", "Bearer " +:+ format_value token)]
                   json params ;;
  raise_for_status response ;;;
  response_json response.

End Methods.

(* ===================================================================== *)
(** ** The domain methods *)
(* ===================================================================== *)

Section Facade.
Variable E : Env.

(** [if v: payload[key] = v] *)
Definition set_if (key : string) (v : value) (payload : gmap string value)
  : gmap string value :=
  if truthy v then <[key := v]> payload else payload.

Definition list_projects : M value :=
  data <- _request E "GET" "projects/" None None ;;
  lift (dict_get data "projects" (VList [])).

Definition get_project (project_id : Z) : M value :=
  data <- _request E "GET" ("projects/" +:+ pretty project_id +:+ "/")
                   None None ;;
  lift (dict_get data "project" (VDict ∅)).

Definition list_sprints (project_id : Z) : M value :=
  data <- _request E "GET"
                   ("projects/" +:+ pretty project_id +:+ "/sprints/")
                   None None ;;
  lift (dict_get data "sprints" (VList [])).

Definition get_sprint (sprint_id : Z) : M value :=
  data <- _request E "GET" ("sprints/" +:+ pretty sprint_id +:+ "/")
                   None None ;;
  lift (dict_get data "sprint" (VDict ∅)).

(** The payload [create_sprint] builds before it dispatches. *)
Definition sprint_payload (name : string)
    (goal start_date end_date velocity_target : value)
  : gmap string value :=
  let payload : gmap string value :=
    {[ "name" := VStr name; "status" := VStr "planned" ]} in
  let payload := set_if "goal" goal payload in
  let payload := set_if "start_date" start_date payload in
  let payload := set_if "end_date" end_date payload in
  let payload := set_if "velocity_target" velocity_target payload in
  payload.

Definition create_sprint (project_id : Z) (name : string)
    (goal start_date end_date velocity_target : value) : M value :=
  let payload :=
    sprint_payload name goal start_date end_date velocity_target in
  data <- _request E "POST"
                   ("projects/" +:+ pretty project_id +:+ "/sprints/")
                   (Some (VDict payload)) None ;;
  lift (dict_get data "sprint" (VDict ∅)).

Definition activate_sprint (sprint_id : Z) : M value :=
  data <- _request E "POST"
                   ("sprints/" +:+ pretty sprint_id +:+ "/activate/")
                   None None ;;
  lift (dict_get data "sprint" (VDict ∅)).

Definition close_sprint (sprint_id : Z) : M value :=
  data <- _request E "POST"
                   ("sprints/" +:+ pretty sprint_id +:+ "/close/")
                   None None ;;
  lift (dict_get data "sprint" (VDict ∅)).

Definition list_work_items (project_id : Z) : M value :=
  data <- _request E "GET"
                   ("projects/" +:+ pretty project_id +:+ "/work-items/")
                   None None ;;
  lift (dict_get data "work_items" (VList [])).

Definition get_work_item (work_item_id : Z) : M value :=
  data <- _request E "GET"
                   ("work-items/" +:+ pretty work_item_id +:+ "/")
                   None None ;;
  lift (dict_get data "work_item" (VDict ∅)).

(** The payload [create_work_item] builds before it dispatches. *)
Definition work_item_payload (title : string) (description : value)
    (item_type : string) (priority : Z)
    (estimate_points assignee_id sprint_id parent_id : value)
  : gmap string value :=
  let payload : gmap string value :=
    {[ "title" := VStr title; "item_type" := VStr item_type;
       "priority" := VInt priority; "status" := VStr "todo" ]} in
  let payload := set_if "description" description payload in
  let payload := set_if "estimate_points" estimate_points payload in
  let payload := set_if "assignee_id" assignee_id payload in
  let payload := set_if "sprint_id" sprint_id payload in
  let payload := set_if "parent_id" parent_id payload in
  payload.

Definition create_work_item (project_id : Z) (title : string)
    (description : value) (item_type : string) (priority : Z)
    (estimate_points assignee_id sprint_id parent_id : value) : M value :=
  let payload :=
    work_item_payload title description item_type priority estimate_points
                      assignee_id sprint_id parent_id in
  data <- _request E "POST"
                   ("projects/" +:+ pretty project_id +:+ "/work-items/")
                   (Some (VDict payload)) None ;;
  lift (dict_get data "work_item" (VDict ∅)).

Definition update_work_item (work_item_id : Z)
    (kwargs : gmap string value) : M value :=
  data <- _request E "PATCH"
                   ("work-items/" +:+ pretty work_item_id +:+ "/")
                   (Some (VDict kwargs)) None ;;
  lift (dict_get data "work_item" (VDict ∅)).

Definition get_backlog (project_id : Z) : M value :=
  data <- _request E "GET"
                   ("projects/" +:+ pretty project_id +:+ "/backlog/")
                   None None ;;
  lift (dict_get data "work_items" (VList [])).

Definition bulk_assign_to_sprint (sprint_id : Z) (work_item_ids : list Z)
  : M value :=
  data <- _request E "POST"
                   ("sprints/" +:+ pretty sprint_id +:+ "/bulk-assign/")
                   (Some (VDict {[ "work_item_ids" :=
                                     VList (VInt <$> work_item_ids) ]}))
                   None ;;
  ret data.

Definition add_sprint_member (sprint_id user_id : Z) : M value :=
  data <- _request E "POST"
                   ("sprints/" +:+ pretty sprint_id +:+ "/members/")
                   (Some (VDict {[ "user_id" := VInt user_id ]})) None ;;
  ret data.

Definition remove_sprint_member (sprint_id member_id : Z) : M value :=
  data <- _request E "DELETE"
                   ("sprints/" +:+ pretty sprint_id +:+ "/members/"
                    +:+ pretty member_id +:+ "/")
                   None None ;;
  ret data.

End Facade.

(* ===================================================================== *)
(** ** Sequences of operations on one client *)
(* ===================================================================== *)

Inductive op : Type :=
| GetToken
| Dispatch (method endpoint : string) (json params : option value).

Section Sequential.
Variable E : Env.

(** One operation run to completion; its result or exception goes to
    the caller and only the client and the history remain. *)
Definition run_op (o : op) (s : Client * list event)
  : Client * list event :=
  match o with
  | GetToken =>
      let '(_, c, h) := _get_token E s.1 s.2 in (c, h)
  | Dispatch method endpoint json params =>
      let '(_, c, h) := _request E method endpoint json params s.1 s.2 in
      (c, h)
  end.

Definition run_ops (os : list op) (s : Client * list event)
  : Client * list event :=
  foldl (fun s o => run_op o s) s os.

End Sequential.

(** The access value and the instant of the most recent login that
    succeeded, read off the history: a call to the authentication
    endpoint answered with a success status and a body holding
    ["access"], followed by the clock reading of line 53. *)
Definition minted (auth_url : string) (req : Request) (out : Outcome)
  : option value :=
  if String.eqb (url req) auth_url then
    match out with
    | Responded r =>
        if is_success r then
          match decoded r with
          | Some (VDict d) => d !! "access"
          | _ => None
          end
        else None
    | Failed _ => None
    end
  else None.

Fixpoint last_mint (auth_url : string) (h : list event)
  : option (value * Z) :=
  match h with
  | Now t :: ((Call req out :: _) as h') =>
      match minted auth_url req out with
      | Some a => Some (a, t)
      | None => last_mint auth_url h'
      end
  | _ :: h' => last_mint auth_url h'
  | [] => None
  end.

(* ===================================================================== *)
(** ** Concurrent callers of [_get_token] *)
(* ===================================================================== *)

(** [_get_token] is a coroutine.  Between its start and the [await] of
    line 43 it does not yield, and between the arrival of the response
    and its return it does not yield either; other coroutines of the
    event loop run only while it waits for the response.  The two
    functions below are the two halves of [_get_token]. *)

Inductive paused : Type :=
| Finished (token : value)
| Waiting (req : Request) (out : Outcome).

Section Coroutine.
Variable E : Env.

(** Lines 36-46: the validity check and, when it fails, the sending of
    the login request. *)
Definition _get_token_enter (c : Client) (h : list event)
  : paused * list event :=
  let '(valid, h) :=
    if truthy (access_token c) then
      match token_expires_at c with
      | Some expires_at =>
          let t := clock E h in
          (bool_decide (t < expires_at - minutes 5), Now t :: h)
      | None => (false, h)
      end
    else (false, h) in
  if valid then (Finished (access_token c), h)
  else
    let req := mkRequest (verify_ssl c) "POST" (login_url c) []
                         (Some (login_body c)) None in
    let out := server E h req in
    (Waiting req out, Call req out :: h).

(** Lines 43-56, from the moment the call of line 43 ends. *)
Definition _get_token_resume (req : Request) (out : Outcome) : M value :=
  match out with
  | Failed f => raise (TransportError f req)
  | Responded r =>
      let response := mkResponse req r in
      raise_for_status response ;;;
      data <- response_json response ;;
      access <- lift (getitem data "access") ;;
      modify_self (set_access_token access) ;;;
      refresh <- lift (dict_get data "refresh" VNone) ;;
      modify_self (set_refresh_token refresh) ;;;
      t <- now E ;;
      modify_self (set_token_expires_at (Some (t + hours 1))) ;;;
      self <- get_self ;;
      ret (access_token self)
  end.

Inductive task : Type :=
| Pending                                  (* not started *)
| Suspended (req : Request) (out : Outcome) (* waiting at line 43 *)
| Done (r : result value).                 (* returned or raised *)

(** The callers share one client and one world. *)
Record pool : Type := mkPool {
  shared : Client;
  history : list event;
  tasks : list task
}.

(** The event loop runs task [i] up to its next suspension. *)
Definition step (p : pool) (i : nat) : pool :=
  match tasks p !! i with
  | Some Pending =>
      match _get_token_enter (shared p) (history p) with
      | (Finished token, h) =>
          mkPool (shared p) h (<[i := Done (Ok token)]> (tasks p))
      | (Waiting req out, h) =>
          mkPool (shared p) h (<[i := Suspended req out]> (tasks p))
      end
  | Some (Suspended req out) =>
      let '(r, c, h) := _get_token_resume req out (shared p) (history p) in
      mkPool c h (<[i := Done r]> (tasks p))
  | Some (Done _) | None => p
  end.

Definition run (schedule : list nat) (p : pool) : pool :=
  foldl step p schedule.

(** [n] calls issued together on client [c]. *)
Definition spawn (n : nat) (c : Client) (h : list event) : pool :=
  mkPool c h (replicate n Pending).

End Coroutine.

(** The login calls among the requests of a history. *)
Definition login_calls (auth_url : string) (h : list event) : list Request :=
  filter (fun req => url req = auth_url) (calls h).

(** What a caller of [_get_token] gets from the outcome of its own login
    call. *)
Definition login_result (req : Request) (out : Outcome) : result value :=
  match out with
  | Failed f => Raised (TransportError f req)
  | Responded r =>
      if is_success r then
        match decoded r with
        | Some data => getitem data "access"
        | None => Raised JSONDecodeError
        end
      else Raised (HTTPStatusError (mkResponse req r))
  end.

(* ===================================================================== *)
(** ** The error taxonomy of the specification *)
(* ===================================================================== *)

(** The specification names four kinds of failure; the code raises the
    exceptions of Python and httpx.  The kinds, read on the exceptions:
    a failure of the login call (rejected, or answered without a
    readable access field) is an authentication failure; an error status
    on any other call is a remote request failure; a call that did not
    complete is a transport failure. *)
Definition AuthenticationFailure (auth_url : string) (e : exn) : Prop :=
  match e with
  | HTTPStatusError r => url (request r) = auth_url
  | KeyError key => key = "access"
  | TypeError | JSONDecodeError => True
  | _ => False
  end.

Definition RemoteRequestFailure (auth_url : string) (e : exn)
    (status : Z) (body : string) : Prop :=
  match e with
  | HTTPStatusError r =>
      url (request r) <> auth_url /\
      status_code (reply r) = status /\ content (reply r) = body
  | _ => False
  end.

Definition TransportFailure (e : exn) : Prop :=
  match e with
  | TransportError _ _ => True
  | _ => False
  end.

(* ===================================================================== *)
(** ** Notions used in the statements *)
(* ===================================================================== *)

(** The login request of a client, as line 43 builds it. *)
Definition login_request (c : Client) : Request :=
  mkRequest (verify_ssl c) "POST" (login_url c) []
            (Some (login_body c)) None.

(** The request [_request] builds for a verb, a suffix and a token. *)
Definition tracker_request (E : Env) (c : Client) (method endpoint : string)
    (token : value) (json params : option value) : Request :=
  mkRequest (verify_ssl c) method
            (api_url c +:+ "/api/tracker/" +:+ endpoint)
            [("Authorization", "Bearer " +:+ format_value E token)]
            json params.

(** A credential is held: both tests of line 36 pass. *)
Definition held (c : Client) : bool :=
  truthy (access_token c) && bool_decide (is_Some (token_expires_at c)).

(** The held credential passes the test of line 38 at instant [t]. *)
Definition token_valid (c : Client) (t : Z) : bool :=
  truthy (access_token c) &&
  match token_expires_at c with
  | Some expires_at => bool_decide (t < expires_at - minutes 5)
  | None => false
  end.

(** The history once lines 36-38 have run: the clock is read only when a
    credential is held. *)
Definition checked (E : Env) (c : Client) (h : list event) : list event :=
  if held c then Now (clock E h) :: h else h.

(** The reply carries an access field: its body is a JSON object with
    the key ["access"]. *)
Definition has_access (r : Reply) : bool :=
  match decoded r with
  | Some (VDict d) => bool_decide (is_Some (d !! "access"))
  | _ => false
  end.

(** The client after a login that returned [access] and [refresh] and
    was stamped at instant [t]. *)
Definition logged_in (c : Client) (access refresh : value) (t : Z) : Client :=
  mkClient (api_url c) (email c) (password c) (verify_ssl c)
           access refresh (Some (t + hours 1)).

(** What a caller of [_request] gets from the outcome of the tracker
    call. *)
Definition dispatch_result (req : Request) (out : Outcome) : result value :=
  match out with
  | Failed f => Raised (TransportError f req)
  | Responded r =>
      if is_success r then
        match decoded r with
        | Some data => Ok data
        | None => Raised JSONDecodeError
        end
      else Raised (HTTPStatusError (mkResponse req r))
  end.

(** The credential state never pairs a usable access value with an
    unset expiry. *)
Definition consistent (c : Client) : Prop :=
  truthy (access_token c) = true -> is_Some (token_expires_at c).

(** What holds between the credential state and the history after any
    number of operations: the state is the one of the most recent
    successful login, and no successful login sits at the head of the
    history without its clock reading. *)
Definition stamped (auth_url : string) (c : Client) (h : list event) : Prop :=
  match last_mint auth_url h with
  | Some (a, t) =>
      access_token c = a /\ token_expires_at c = Some (t + hours 1)
  | None => access_token c = VNone /\ token_expires_at c = None
  end.

Definition settled (auth_url : string) (h : list event) : Prop :=
  match h with
  | Call req out :: _ => minted auth_url req out = None
  | _ => True
  end.

(** [method] is [dispatch] followed by [data.get(key, fallback)]: when
    the dispatch returns a JSON object without [key], the method returns
    [fallback], with the client and history the dispatch left. *)
Definition falls_back (dispatch method : M value) (key : string)
    (fallback : value) : Prop :=
  forall (c : Client) (h : list event) (d : gmap string value)
         (c' : Client) (h' : list event),
    dispatch c h = (Ok (VDict d), c', h') ->
    d !! key = None ->
    method c h = (Ok fallback, c', h').

(** The requests of a history with their outcomes, most recent first. *)
Fixpoint exchanges (h : list event) : list (Request * Outcome) :=
  match h with
  | [] => []
  | Now _ :: h' => exchanges h'
  | Call req out :: h' => (req, out) :: exchanges h'
  end.

(** The stored credential fails the validity check at whatever instant
    the clock shows. *)
Definition no_valid_credential (E : Env) (c : Client) : Prop :=
  forall h, token_valid c (clock E h) = false.

(** Single flight, as the specification words it: the callers all end
    with the same access value and one login call has been added. *)
Definition single_flight (E : Env) (n : nat) (c : Client) (h : list event)
    (schedule : list nat) : Prop :=
  let p := run E schedule (spawn n c h) in
  (exists token, tasks p = replicate n (Done (Ok token))) /\
  length (login_calls (login_url c) (history p)) =
  S (length (login_calls (login_url c) h)).

(** After the start, in whatever order the responses are handled: the
    exchanges stay as they are, and caller [i] is done, with the result
    of its own login call, exactly when it has been resumed. *)
Definition answered (c : Client) (outs : list Outcome) (resumed : list nat)
    (ts : list task) : Prop :=
  length ts = length outs /\
  forall i out,
    outs !! i = Some out ->
    ts !! i = Some (if bool_decide (i ∈ resumed)
                    then Done (login_result (login_request c) out)
                    else Suspended (login_request c) out).

(* ===================================================================== *)
(** ** Concrete worlds and clients for the examples *)
(* ===================================================================== *)

(** The scenario of the specification's last testable property: the
    k-th login is answered with the access value ["T<k>"], and every
    tracker call with one project. *)
Definition scenario_projects : value :=
  VDict {[ "projects" :=
             VList [VDict {[ "id" := VInt 1; "name" := VStr "X";
                             "status" := VStr "active" ]}] ]}.

Definition scenario_server (h : list event) (req : Request) : Outcome :=
  if String.eqb (url req) "https://api.apiport.hu/api/accounts/token/" then
    Responded (mkReply 200 ""
      (Some (VDict {[ "access" :=
                        VStr ("T" +:+ pretty (S (length (calls h)))) ]})))
  else Responded (mkReply 200 "" (Some scenario_projects)).

Definition scenario_env : Env :=
  mkEnv (fun h => 1000000 * Z.of_nat (length h)) scenario_server
        (fun _ => "").

(** A server that rejects everything with status 404; one that cannot be
    reached. *)
Definition rejecting_env : Env :=
  mkEnv (fun h => 1000000 * Z.of_nat (length h))
        (fun _ _ => Responded (mkReply 404 "not found" None))
        (fun _ => "").

Definition unreachable_env : Env :=
  mkEnv (fun h => 1000000 * Z.of_nat (length h))
        (fun _ _ => Failed ConnectError)
        (fun _ => "").

Definition fresh_client : Client :=
  mkClient "https://api.apiport.hu" "a@b.com" "secret" true VNone VNone None.

Definition client_with_token : Client :=
  mkClient "https://api.apiport.hu" "a@b.com" "secret" true
           (VStr "T1") VNone (Some (hours 1)).

(** A held credential whose expiry is exactly five minutes after the
    first clock reading of the scenario. *)
Definition client_at_boundary : Client :=
  mkClient "https://api.apiport.hu" "a@b.com" "secret" true
           (VStr "T0") VNone (Some (minutes 5)).

(** A tracker that answers every call with an empty JSON object. *)
Definition empty_object_env : Env :=
  mkEnv (fun h => 1000000 * Z.of_nat (length h))
        (fun _ _ => Responded (mkReply 200 "{}" (Some (VDict ∅))))
        (fun _ => "").

(** The end-to-end scenario: a dispatch on a fresh client, then a second
    acquisition that reuses the token. *)
Definition scenario_ops : list op :=
  [Dispatch "GET" "projects/" None None; GetToken].

Definition scenario_end : Client * list event :=
  run_ops scenario_env scenario_ops (fresh_client, []).

(** Two callers on a fresh client: both start, then both receive their
    response. *)
Definition racing_pool : pool :=
  run scenario_env [0; 1; 0; 1]%nat (spawn 2 fresh_client []).

(* ===================================================================== *)
(** ** The methods that read a sub-field *)
(* ===================================================================== *)

(** The twelve methods that end in [data.get(key, default)], with their
    arguments. *)
Inductive reader : Type :=
| ListProjects
| GetProject (project_id : Z)
| ListSprints (project_id : Z)
| GetSprint (sprint_id : Z)
| CreateSprint (project_id : Z) (name : string)
               (goal start_date end_date velocity_target : value)
| ActivateSprint (sprint_id : Z)
| CloseSprint (sprint_id : Z)
| ListWorkItems (project_id : Z)
| GetWorkItem (work_item_id : Z)
| CreateWorkItem (project_id : Z) (title : string) (description : value)
                 (item_type : string) (priority : Z)
                 (estimate_points assignee_id sprint_id parent_id : value)
| UpdateWorkItem (work_item_id : Z) (kwargs : gmap string value)
| GetBacklog (project_id : Z).

Definition run_reader (E : Env) (rd : reader) : M value :=
  match rd with
  | ListProjects => list_projects E
  | GetProject id => get_project E id
  | ListSprints id => list_sprints E id
  | GetSprint id => get_sprint E id
  | CreateSprint id name goal start_date end_date velocity_target =>
      create_sprint E id name goal start_date end_date velocity_target
  | ActivateSprint id => activate_sprint E id
  | CloseSprint id => close_sprint E id
  | ListWorkItems id => list_work_items E id
  | GetWorkItem id => get_work_item E id
  | CreateWorkItem id title description item_type priority estimate_points
                   assignee_id sprint_id parent_id =>
      create_work_item E id title description item_type priority
                       estimate_points assignee_id sprint_id parent_id
  | UpdateWorkItem id kwargs => update_work_item E id kwargs
  | GetBacklog id => get_backlog E id
  end.

(** The call of [_request] each of them makes: verb, path and body. *)
Definition reader_dispatch (E : Env) (rd : reader) : M value :=
  match rd with
  | ListProjects => _request E "GET" "projects/" None None
  | GetProject id =>
      _request E "GET" ("projects/" +:+ pretty id +:+ "/") None None
  | ListSprints id =>
      _request E "GET" ("projects/" +:+ pretty id +:+ "/sprints/") None None
  | GetSprint id =>
      _request E "GET" ("sprints/" +:+ pretty id +:+ "/") None None
  | CreateSprint id name goal start_date end_date velocity_target =>
      _request E "POST" ("projects/" +:+ pretty id +:+ "/sprints/")
               (Some (VDict (sprint_payload name goal start_date end_date
                                            velocity_target)))
               None
  | ActivateSprint id =>
      _request E "POST" ("sprints/" +:+ pretty id +:+ "/activate/") None None
  | CloseSprint id =>
      _request E "POST" ("sprints/" +:+ pretty id +:+ "/close/") None None
  | ListWorkItems id =>
      _request E "GET" ("projects/" +:+ pretty id +:+ "/work-items/")
               None None
  | GetWorkItem id =>
      _request E "GET" ("work-items/" +:+ pretty id +:+ "/") None None
  | CreateWorkItem id title description item_type priority estimate_points
                   assignee_id sprint_id parent_id =>
      _request E "POST" ("projects/" +:+ pretty id +:+ "/work-items/")
               (Some (VDict (work_item_payload title description item_type
                               priority estimate_points assignee_id
                               sprint_id parent_id)))
               None
  | UpdateWorkItem id kwargs =>
      _request E "PATCH" ("work-items/" +:+ pretty id +:+ "/")
               (Some (VDict kwargs)) None
  | GetBacklog id =>
      _request E "GET" ("projects/" +:+ pretty id +:+ "/backlog/") None None
  end.

(** The key each of them reads. *)
Definition reader_key (rd : reader) : string :=
  match rd with
  | ListProjects => "projects"
  | GetProject _ => "project"
  | ListSprints _ => "sprints"
  | GetSprint _ | CreateSprint _ _ _ _ _ _ | ActivateSprint _
  | CloseSprint _ => "sprint"
  | ListWorkItems _ | GetBacklog _ => "work_items"
  | GetWorkItem _ | CreateWorkItem _ _ _ _ _ _ _ _ _
  | UpdateWorkItem _ _ => "work_item"
  end.

(* ===================================================================== *)
(** ** server.py: the client singleton and the resource reader *)
(* ===================================================================== *)

(** The module-level [_client] is [None] or the one client object; a
    method called on [get_client()] mutates that object, so the global
    is threaded through as the state. *)

(** [get_client]: [ApiPortClient()] takes every argument at its default,
    [None] for the three strings and [True] for [verify_ssl]; when the
    constructor raises, the assignment does not happen. *)
Definition get_client (environ : gmap string string)
    (_client : option Client) : result Client * option Client :=
  match _client with
  | None =>
      match __init__ environ None None None true with
      | Ok c => (Ok c, Some c)
      | Raised e => (Raised e, None)
      end
  | Some c => (Ok c, Some c)
  end.

(** What the server's own code can raise: whatever the client raises,
    and the IndexError of a list subscript. *)
Inductive server_exn : Type :=
| ClientError (e : exn)
| IndexError.

Inductive server_result (A : Type) : Type :=
| Returns (a : A)
| Raises (e : server_exn).
Arguments Returns {A} a.
Arguments Raises {A} e.

(** [s.split(sep)] for a non-empty separator: the pieces between the
    occurrences of [sep], found from left to right without overlap.
    [split_go] returns the piece in progress and the pieces after it;
    [skip] counts the characters of a separator still to be dropped. *)
Fixpoint split_go (sep : string) (skip : nat) (s : string)
  : string * list string :=
  match s with
  | EmptyString => (EmptyString, [])
  | String ch s' =>
      match skip with
      | S k => split_go sep k s'
      | O =>
          if String.prefix sep s then
            let '(piece, pieces) := split_go sep (String.length sep - 1) s' in
            (EmptyString, piece :: pieces)
          else
            let '(piece, pieces) := split_go sep 0 s' in
            (String ch piece, pieces)
      end
  end.

Definition py_split (sep s : string) : list string :=
  let '(piece, pieces) := split_go sep 0 s in piece :: pieces.

(** A handler of the server: it works on the global [_client] and the
    history. *)
Definition H (A : Type) : Type :=
  option Client -> list event -> server_result A * option Client * list event.

Section Resources.
Variable E : Env.
(** The process environment, Python's [int] on a string, and
    [json.dumps(_, indent=2)]. *)
Variable environ : gmap string string.
Variable py_int : string -> result Z.
Variable json_dumps : value -> string.

(** [await get_client().method(...)] *)
Definition on_client {A} (m : M A) : H A :=
  fun g h =>
    match get_client environ g with
    | (Raised e, g') => (Raises (ClientError e), g', h)
    | (Ok c, _) =>
        match m c h with
        | (Ok a, c', h') => (Returns a, Some c', h')
        | (Raised e, c', h') => (Raises (ClientError e), Some c', h')
        end
    end.

(** [int(uri_str.split("//")[1])] *)
Definition resource_id (uri_str : string) : server_result Z :=
  match py_split "//" uri_str !! 1%nat with
  | None => Raises IndexError
  | Some piece =>
      match py_int piece with
      | Ok n => Returns n
      | Raised e => Raises (ClientError e)
      end
  end.

(** The rest of a branch of [read_resource], once the id is there. *)
Definition dump_of {A} (id : server_result A) (m : A -> M value) : H string :=
  fun g h =>
    match id with
    | Raises e => (Raises e, g, h)
    | Returns n =>
        match on_client (m n) g h with
        | (Returns data, g', h') => (Returns (json_dumps data), g', h')
        | (Raises e, g', h') => (Raises e, g', h')
        end
    end.

(** [read_resource]; [uri_str] is [str(uri)]. *)
Definition read_resource (uri_str : string) : H string :=
  if String.eqb uri_str "project://list" then
    dump_of (Returns tt) (fun _ => list_projects E)
  else if String.prefix "project://" uri_str then
    dump_of (resource_id uri_str) (get_project E)
  else if String.prefix "sprint://" uri_str then
    dump_of (resource_id uri_str) (get_sprint E)
  else if String.prefix "backlog://" uri_str then
    dump_of (resource_id uri_str) (get_backlog E)
  else
    fun g h =>
      (Raises (ClientError (ValueError ("Unknown resource: " +:+ uri_str))),
       g, h).

End Resources.

(* ===================================================================== *)
(** ** Notions used in the further statements *)
(* ===================================================================== *)

(** The string the constructor settles on for an argument with an
    environment fallback: the argument when it is a non-empty string,
    otherwise the variable's value, and in both cases not empty. *)
Definition settles_on (arg env : option string) (s : string) : Prop :=
  s <> "" /\
  (arg = Some s \/ ((arg = None \/ arg = Some "") /\ env = Some s)).

(** The strings that [lower] sends to ["true"]. *)
Definition spells_true (v : string) : Prop :=
  exists a b c d,
    v = String a (String b (String c (String d EmptyString))) /\
    (a = "t"%char \/ a = "T"%char) /\ (b = "r"%char \/ b = "R"%char) /\
    (c = "u"%char \/ c = "U"%char) /\ (d = "e"%char \/ d = "E"%char).

(** The three URI schemes that carry an id, with the method each one
    calls. *)
Inductive scheme : Type :=
| ProjectScheme
| SprintScheme
| BacklogScheme.

Definition scheme_prefix (sc : scheme) : string :=
  match sc with
  | ProjectScheme => "project://"
  | SprintScheme => "sprint://"
  | BacklogScheme => "backlog://"
  end.

Definition scheme_method (E : Env) (sc : scheme) : Z -> M value :=
  match sc with
  | ProjectScheme => get_project E
  | SprintScheme => get_sprint E
  | BacklogScheme => get_backlog E
  end.

(** [int(a)], as a result of the handler. *)
Definition parsed (py_int : string -> result Z) (a : string)
  : server_result Z :=
  match py_int a with
  | Ok n => Returns n
  | Raised e => Raises (ClientError e)
  end.

(** No character of the string is a slash. *)
Fixpoint no_slash (s : string) : bool :=
  match s with
  | EmptyString => true
  | String ch s' => negb (Ascii.eqb ch "/") && no_slash s'
  end.

(** A caller that has passed its validity check. *)
Definition started (t : task) : bool :=
  match t with
  | Pending => false
  | Suspended _ _ | Done _ => true
  end.

Fixpoint started_count (ts : list task) : nat :=
  match ts with
  | [] => 0
  | t :: ts' => (if started t then 1 else 0) + started_count ts'
  end%nat.

(** What every step of the event loop keeps: the login request of the
    shared client, the number of callers, and a list of login exchanges
    no longer than the number of callers that have started. *)
Definition bounded (c : Client) (h : list event) (n : nat) (p : pool) : Prop :=
  login_request (shared p) = login_request c /\
  length (tasks p) = n /\
  exists outs,
    (length outs <= started_count (tasks p))%nat /\
    exchanges (history p) =
    (reverse ((fun out => (login_request c, out)) <$> outs)
     ++ exchanges h)%list.



(* ===================================================================== *)
(** ** Further worlds for the examples *)
(* ===================================================================== *)

(** The login of the scenario on a fresh client. *)
Definition scenario_login : result value * Client * list event :=
  _get_token scenario_env fresh_client [].

(** A login answered with the empty string as access value, followed by
    a second acquisition: the second one logs in again. *)
Definition empty_token_env : Env :=
  mkEnv (fun h => 1000000 * Z.of_nat (length h))
        (fun _ _ => Responded (mkReply 200 ""
                      (Some (VDict {[ "access" := VStr "" ]}))))
        (fun _ => "").

(** A tracker that answers every call with a JSON list. *)
Definition list_body_env : Env :=
  mkEnv (fun h => 1000000 * Z.of_nat (length h))
        (fun _ _ => Responded (mkReply 200 "[]" (Some (VList []))))
        (fun _ => "").

(** A tracker that answers every call with [{"projects": null}]. *)
Definition null_field_env : Env :=
  mkEnv (fun h => 1000000 * Z.of_nat (length h))
        (fun _ _ => Responded
           (mkReply 200 "" (Some (VDict {[ "projects" := VNone ]}))))
        (fun _ => "").

(** An environment that asks for verification to be off. *)
Definition no_verify_environ : gmap string string :=
  {[ "APIPORT_EMAIL" := "a@b.com"; "APIPORT_PASSWORD" := "secret";
     "VERIFY_SSL" := "false" ]}.

(** [int] on the two strings the examples use. *)
Definition int_5_only (s : string) : result Z :=
  if String.eqb s "5" then Ok 5
  else Raised (ValueError "invalid literal for int() with base 10").


(* ===================================================================== *)
(** ** Basic facts *)
(* ===================================================================== *)

Ltac unfold_method :=
  unfold _request, _get_token, _get_token_resume, _get_token_enter,
         send, now, raise_for_status, response_json, lift, modify_self,
         get_self, bind, ret, raise in *.

Lemma append_inj_l (a x y : string) : a +:+ x = a +:+ y -> x = y.
Proof.
  induction a as [|ch a IH]; simpl; [done|].
  intros H. injection H as H. by apply IH.
Qed.

Lemma tracker_url_not_login (c : Client) (endpoint : string) :
  api_url c +:+ "/api/tracker/" +:+ endpoint <> login_url c.
Proof.
  unfold login_url. intros H. apply append_inj_l in H. discriminate H.
Qed.

Section Credential.
Variable E : Env.

(** [_get_token] is its two halves run back to back. *)
Lemma _get_token_halves (c : Client) (h : list event) :
  _get_token E c h =
  match _get_token_enter E c h with
  | (Finished token, h1) => (Ok token, c, h1)
  | (Waiting req out, h1) => _get_token_resume E req out c h1
  end.
Proof.
  unfold_method.
  destruct (truthy (access_token c)); simpl.
  - destruct (token_expires_at c) as [e|]; simpl.
    + destruct (bool_decide _); simpl; [done|].
      by destruct (server E _ _).
    + by destruct (server E _ _).
  - by destruct (server E _ _).
Qed.

Lemma _get_token_enter_valid (c : Client) (h : list event) :
  token_valid c (clock E h) = true ->
  _get_token_enter E c h = (Finished (access_token c), Now (clock E h) :: h).
Proof.
  unfold token_valid, _get_token_enter.
  destruct (truthy (access_token c)); simpl; [|done].
  destruct (token_expires_at c); [|done].
  by intros ->.
Qed.

Lemma _get_token_enter_invalid (c : Client) (h : list event) :
  token_valid c (clock E h) = false ->
  _get_token_enter E c h =
  (Waiting (login_request c) (server E (checked E c h) (login_request c)),
   Call (login_request c) (server E (checked E c h) (login_request c))
     :: checked E c h).
Proof.
  unfold token_valid, _get_token_enter, checked, held.
  destruct (truthy (access_token c)); simpl; [|done].
  destruct (token_expires_at c); simpl; [|done].
  by intros ->.
Qed.

(** The second half either raises what [login_result] says and touches
    nothing, or stores the three fields together. *)
Lemma _get_token_resume_raises (req : Request) (out : Outcome)
    (c : Client) (h : list event) (e : exn) :
  login_result req out = Raised e ->
  _get_token_resume E req out c h = (Raised e, c, h).
Proof.
  unfold login_result. unfold_method.
  destruct out as [r|f]; simpl; [|by intros [= ->]].
  destruct (is_success r); simpl; [|by intros [= ->]].
  destruct (decoded r) as [data|]; simpl; [|by intros [= ->]].
  by intros ->.
Qed.

Lemma _get_token_resume_returns (req : Request) (out : Outcome)
    (c : Client) (h : list event) (a : value) :
  login_result req out = Ok a ->
  exists r d,
    out = Responded r /\ is_success r = true /\
    decoded r = Some (VDict d) /\ d !! "access" = Some a /\
    _get_token_resume E req out c h =
    (Ok a, logged_in c a (default VNone (d !! "refresh")) (clock E h),
     Now (clock E h) :: h).
Proof.
  unfold login_result. unfold_method.
  destruct out as [r|f]; simpl; [|done].
  destruct (is_success r) eqn:Hs; simpl; [|done].
  destruct (decoded r) as [data|] eqn:Hd; simpl; [|done].
  destruct data as [| | | | | |d]; simpl; try done.
  destruct (d !! "access") as [a'|] eqn:Ha; simpl; [|done].
  intros [= ->]. exists r, d. repeat split; try done.
  by destruct (d !! "refresh").
Qed.

Lemma login_result_raises (req : Request) (r : Reply) :
  is_success r = false \/ has_access r = false ->
  exists e, login_result req (Responded r) = Raised e /\
            AuthenticationFailure (url req) e.
Proof.
  unfold login_result, has_access. intros [Hs|Ha].
  - rewrite Hs. by eexists.
  - destruct (is_success r).
    + destruct (decoded r) as [data|]; [|by eexists].
      destruct data as [| | | | | |d]; simpl; try by eexists.
      destruct (d !! "access"); [done|]. by eexists.
    + by eexists.
Qed.

End Credential.

(* ===================================================================== *)
(** ** Credential manager *)
(* ===================================================================== *)

(** C1.  Credential reuse: when a credential is held and the clock shows
    an instant strictly before the stored expiry minus five minutes,
    [_get_token] returns the held access value, sends nothing, and
    leaves the client (so the credential triple) as it was; the only
    trace it leaves is the clock reading. *)
Theorem C1_credential_reuse (E : Env) (c : Client) (h : list event)
    (expires_at : Z) :
  truthy (access_token c) = true ->
  token_expires_at c = Some expires_at ->
  clock E h < expires_at - minutes 5 ->
  exists c' h',
    _get_token E c h = (Ok (access_token c), c', h') /\
    h' = Now (clock E h) :: h /\
    calls h' = calls h /\
    c' = c /\
    credential_state c' = credential_state c.
Proof.
  intros Ha He Hlt. exists c, (Now (clock E h) :: h).
  rewrite _get_token_halves, _get_token_enter_valid; [done|].
  unfold token_valid. rewrite Ha, He. simpl. by apply bool_decide_eq_true.
Qed.

Lemma C1_credential_reuse_witness :
  exists c' h',
    _get_token scenario_env client_with_token [] =
      (Ok (VStr "T1"), c', h') /\
    h' = [Now 0] /\
    calls h' = [] /\
    c' = client_with_token /\
    credential_state c' = (VStr "T1", VNone, Some 3600000000).
Proof.
  apply (C1_credential_reuse scenario_env client_with_token [] (hours 1));
    vm_compute; reflexivity.
Defined.

(** C2.  Refresh boundary: when no credential is held, or the stored
    expiry is at or before the clock's instant plus five minutes (the
    boundary included), [_get_token] sends exactly one request, the
    login request to the authentication endpoint; when that call
    succeeds (success status, body with an access field) the access
    value and the refresh value ([None] when absent) are stored, the
    expiry becomes the clock reading taken then plus one hour, and the
    new access value is returned. *)
Theorem C2_refresh_boundary (E : Env) (c : Client) (h : list event) :
  held c = false \/
  (exists expires_at,
      token_expires_at c = Some expires_at /\
      expires_at <= clock E h + minutes 5) ->
  let req := login_request c in
  let h1 := checked E c h in
  let out := server E h1 req in
  exists r c' h',
    _get_token E c h = (r, c', h') /\
    calls h' = req :: calls h /\
    method req = "POST" /\
    url req = api_url c +:+ "/api/accounts/token/" /\
    json req = Some (VDict {[ "email" := VStr (email c);
                              "password" := VStr (password c) ]}) /\
    forall rep d access,
      out = Responded rep ->
      is_success rep = true ->
      decoded rep = Some (VDict d) ->
      d !! "access" = Some access ->
      let t := clock E (Call req out :: h1) in
      r = Ok access /\
      access_token c' = access /\
      refresh_token c' = default VNone (d !! "refresh") /\
      token_expires_at c' = Some (t + hours 1) /\
      h' = Now t :: Call req out :: h1.
Proof.
  intros Hpre req h1 out.
  assert (Hinv : token_valid c (clock E h) = false).
  { unfold token_valid. unfold held in Hpre.
    destruct (truthy (access_token c)); [simpl|done].
    destruct Hpre as [Hh|(e & He & Hle)].
    - simpl in Hh. apply bool_decide_eq_false in Hh.
      destruct (token_expires_at c); [|done]. exfalso. apply Hh. by eexists.
    - rewrite He. apply bool_decide_eq_false. lia. }
  assert (Hcalls : calls h1 = calls h).
  { unfold h1, checked. by destruct (held c). }
  rewrite _get_token_halves, (_get_token_enter_invalid _ _ _ Hinv).
  fold req h1 out.
  destruct (login_result req out) as [a|e] eqn:Hres.
  - destruct (_get_token_resume_returns E req out c (Call req out :: h1) a Hres)
      as (r & d & Hout & Hs & Hd & Ha & Hrun).
    rewrite Hrun. eexists _, _, _. split; [done|].
    simpl. rewrite Hcalls. do 4 (split; [done|]).
    intros rep d' access Hout' _ Hd' Ha'.
    rewrite Hout in Hout'. injection Hout' as <-.
    rewrite Hd in Hd'. injection Hd' as <-.
    rewrite Ha in Ha'. injection Ha' as <-.
    done.
  - rewrite (_get_token_resume_raises E req out c _ e Hres).
    eexists _, _, _. split; [done|].
    simpl. rewrite Hcalls. do 4 (split; [done|]).
    intros rep d access Hout Hs Hd Ha. exfalso.
    revert Hres. unfold login_result. rewrite Hout, Hs, Hd. simpl.
    by rewrite Ha.
Qed.

Lemma C2_refresh_boundary_witness :
  (exists expires_at,
      token_expires_at client_at_boundary = Some expires_at /\
      expires_at <= clock scenario_env [] + minutes 5) /\
  exists r c' h',
    _get_token scenario_env client_at_boundary [] = (r, c', h') /\
    calls h' = [login_request client_at_boundary] /\
    method (login_request client_at_boundary) = "POST" /\
    url (login_request client_at_boundary) =
      "https://api.apiport.hu/api/accounts/token/" /\
    json (login_request client_at_boundary) =
      Some (VDict {[ "email" := VStr "a@b.com";
                     "password" := VStr "secret" ]}) /\
    forall rep d access,
      server scenario_env [Now 0] (login_request client_at_boundary) =
        Responded rep ->
      is_success rep = true ->
      decoded rep = Some (VDict d) ->
      d !! "access" = Some access ->
      r = Ok access /\
      access_token c' = access /\
      refresh_token c' = default VNone (d !! "refresh") /\
      token_expires_at c' = Some (2000000 + hours 1) /\
      h' = [Now 2000000;
            Call (login_request client_at_boundary)
                 (server scenario_env [Now 0]
                         (login_request client_at_boundary));
            Now 0].
Proof.
  assert (Hpre : exists expires_at,
             token_expires_at client_at_boundary = Some expires_at /\
             expires_at <= clock scenario_env [] + minutes 5).
  { exists (minutes 5). split; [reflexivity|]. vm_compute. discriminate. }
  split; [exact Hpre|].
  exact (C2_refresh_boundary scenario_env client_at_boundary []
                             (or_intror Hpre)).
Defined.

(** C5.  A failing login leaves the credential state alone: when the
    stored credential does not pass the validity check, so that a login
    is attempted, and the login is answered with a status outside
    200-299 or with a body that carries no access field, [_get_token]
    raises and the client after it is the client before it.  A state
    that was empty stays empty, a state that held a credential keeps it,
    and no access value appears next to an unset expiry. *)
Theorem C5_failed_login_keeps_state (E : Env) (c : Client) (h : list event)
    (rep : Reply) :
  token_valid c (clock E h) = false ->
  server E (checked E c h) (login_request c) = Responded rep ->
  is_success rep = false \/ has_access rep = false ->
  exists e c' h',
    _get_token E c h = (Raised e, c', h') /\
    credential_state c' = credential_state c /\
    c' = c /\
    (consistent c -> consistent c').
Proof.
  intros Hinv Hout Hbad.
  destruct (login_result_raises (login_request c) rep Hbad) as (e & Hres & _).
  exists e, c. eexists.
  rewrite _get_token_halves, (_get_token_enter_invalid _ _ _ Hinv), Hout.
  by rewrite (_get_token_resume_raises E _ _ c _ e Hres).
Qed.

Lemma C5_failed_login_keeps_state_witness :
  token_valid client_at_boundary (clock rejecting_env []) = false /\
  exists e c' h',
    _get_token rejecting_env client_at_boundary [] = (Raised e, c', h') /\
    credential_state c' = (VStr "T0", VNone, Some 300000000) /\
    c' = client_at_boundary /\
    (consistent client_at_boundary -> consistent c').
Proof.
  split; [reflexivity|].
  apply (C5_failed_login_keeps_state rejecting_env client_at_boundary []
           (mkReply 404 "not found" None)).
  - reflexivity.
  - reflexivity.
  - left. reflexivity.
Defined.

(** C7.  Authentication failure: under the same conditions the exception
    [_get_token] raises is an authentication failure (for an error
    status, httpx's HTTPStatusError carrying the login request and the
    reply; for a JSON object without the access field, the KeyError of
    line 50), exactly one login call has been sent, and [_request] ends
    with that same exception, the same client and the same history: it
    sends nothing of its own and does not try again. *)
Theorem C7_authentication_failure (E : Env) (c : Client) (h : list event)
    (rep : Reply) (verb endpoint : string) (body query : option value) :
  token_valid c (clock E h) = false ->
  server E (checked E c h) (login_request c) = Responded rep ->
  is_success rep = false \/ has_access rep = false ->
  exists e h',
    AuthenticationFailure (login_url c) e /\
    (is_success rep = false ->
     e = HTTPStatusError (mkResponse (login_request c) rep)) /\
    (forall d, is_success rep = true -> decoded rep = Some (VDict d) ->
               e = KeyError "access") /\
    _get_token E c h = (Raised e, c, h') /\
    _request E verb endpoint body query c h = (Raised e, c, h') /\
    calls h' = login_request c :: calls h.
Proof.
  intros Hinv Hout Hbad.
  destruct (login_result_raises (login_request c) rep Hbad) as (e & Hres & Hauth).
  exists e. eexists.
  assert (Hrun : _get_token E c h =
                 (Raised e, c, Call (login_request c) (Responded rep)
                                 :: checked E c h)).
  { rewrite _get_token_halves, (_get_token_enter_invalid _ _ _ Hinv), Hout.
    by rewrite (_get_token_resume_raises E _ _ c _ e Hres). }
  split; [exact Hauth|]. split.
  { intros Hs. revert Hres. unfold login_result. rewrite Hs. congruence. }
  split.
  { intros d Hs Hd. destruct Hbad as [Hbad|Hbad]; [congruence|].
    revert Hres Hbad. unfold login_result, has_access. rewrite Hs, Hd. simpl.
    destruct (d !! "access"); [done|congruence]. }
  split; [exact Hrun|]. split.
  - unfold _request, bind. by rewrite Hrun.
  - simpl. unfold checked. by destruct (held c).
Qed.

Lemma C7_authentication_failure_witness :
  token_valid fresh_client (clock rejecting_env []) = false /\
  exists e h',
    AuthenticationFailure (login_url fresh_client) e /\
    (is_success (mkReply 404 "not found" None) = false ->
     e = HTTPStatusError
           (mkResponse (login_request fresh_client)
                       (mkReply 404 "not found" None))) /\
    (forall d, is_success (mkReply 404 "not found" None) = true ->
               decoded (mkReply 404 "not found" None) = Some (VDict d) ->
               e = KeyError "access") /\
    _get_token rejecting_env fresh_client [] = (Raised e, fresh_client, h') /\
    _request rejecting_env "GET" "projects/" None None fresh_client [] =
      (Raised e, fresh_client, h') /\
    calls h' = [login_request fresh_client].
Proof.
  split; [reflexivity|].
  apply (C7_authentication_failure rejecting_env fresh_client []
           (mkReply 404 "not found" None) "GET" "projects/" None None).
  - reflexivity.
  - reflexivity.
  - left. reflexivity.
Defined.

(* ===================================================================== *)
(** ** Request dispatcher *)
(* ===================================================================== *)

(** [_get_token] sends at most the login request and never touches the
    identity. *)
Lemma _get_token_footprint (E : Env) (c : Client) (h : list event)
    (tok : result value) (c1 : Client) (h1 : list event) :
  _get_token E c h = (tok, c1, h1) ->
  (calls h1 = calls h \/ calls h1 = login_request c :: calls h) /\
  api_url c1 = api_url c /\ verify_ssl c1 = verify_ssl c /\
  email c1 = email c /\ password c1 = password c.
Proof.
  rewrite _get_token_halves.
  destruct (token_valid c (clock E h)) eqn:Hv.
  - rewrite (_get_token_enter_valid _ _ _ Hv). intros [= <- <- <-].
    split; [by left|done].
  - rewrite (_get_token_enter_invalid _ _ _ Hv).
    set (out := server E _ _).
    assert (Hc : calls (checked E c h) = calls h).
    { unfold checked. by destruct (held c). }
    destruct (login_result (login_request c) out) as [a|e] eqn:Hres.
    + destruct (_get_token_resume_returns E _ out c
                  (Call (login_request c) out :: checked E c h) a Hres)
        as (r & d & _ & _ & _ & _ & ->).
      intros [= <- <- <-]. simpl. rewrite Hc. split; [by right|done].
    + rewrite (_get_token_resume_raises E _ out c _ e Hres).
      intros [= <- <- <-]. simpl. rewrite Hc. split; [by right|done].
Qed.

(** [_request] once the token is there: one tracker call, whose outcome
    decides the result. *)
Lemma _request_with_token (E : Env) (c : Client) (h : list event)
    (verb endpoint : string) (body query : option value)
    (token : value) (c1 : Client) (h1 : list event) :
  _get_token E c h = (Ok token, c1, h1) ->
  let req := tracker_request E c1 verb endpoint token body query in
  _request E verb endpoint body query c h =
  (dispatch_result req (server E h1 req), c1,
   Call req (server E h1 req) :: h1).
Proof.
  intros Hrun req. unfold _request, bind. rewrite Hrun.
  unfold get_self, send. fold (tracker_request E c1 verb endpoint token body query).
  fold req. unfold dispatch_result.
  destruct (server E h1 req) as [rep|f]; [|done].
  unfold raise_for_status, response_json, ret, raise. simpl.
  destruct (is_success rep); [|done].
  by destruct (decoded rep).
Qed.

Lemma _request_without_token (E : Env) (c : Client) (h : list event)
    (verb endpoint : string) (body query : option value)
    (e : exn) (c1 : Client) (h1 : list event) :
  _get_token E c h = (Raised e, c1, h1) ->
  _request E verb endpoint body query c h = (Raised e, c1, h1).
Proof. intros Hrun. unfold _request, bind. by rewrite Hrun. Qed.

(** C4.  Endpoint composition: [_request] first runs [_get_token], whose
    only possible request is the login request, to
    [<api_url>/api/accounts/token/]; if that raises, nothing else is
    sent; otherwise exactly one more request is sent, with the given
    verb, body and query, to [<api_url>/api/tracker/<endpoint>], with the
    single header [Authorization: Bearer <token>] where the token is
    what [_get_token] returned. *)
Theorem C4_endpoint_composition (E : Env) (c : Client) (h : list event)
    (verb endpoint : string) (body query : option value) :
  exists tok c1 h1,
    _get_token E c h = (tok, c1, h1) /\
    (calls h1 = calls h \/ calls h1 = login_request c :: calls h) /\
    url (login_request c) = api_url c +:+ "/api/accounts/token/" /\
    match tok with
    | Raised e =>
        _request E verb endpoint body query c h = (Raised e, c1, h1)
    | Ok token =>
        exists r h' req,
          _request E verb endpoint body query c h = (r, c1, h') /\
          calls h' = req :: calls h1 /\
          method req = verb /\
          url req = api_url c +:+ "/api/tracker/" +:+ endpoint /\
          headers req =
            [("Authorization", "Bearer " +:+ format_value E token)] /\
          (forall s, token = VStr s ->
                     headers req = [("Authorization", "Bearer " +:+ s)]) /\
          json req = body /\
          params req = query
    end.
Proof.
  destruct (_get_token E c h) as [[tok c1] h1] eqn:Hrun.
  exists tok, c1, h1. split; [done|].
  destruct (_get_token_footprint E c h tok c1 h1 Hrun)
    as (Hcalls & Hurl & _).
  split; [exact Hcalls|]. split; [done|].
  destruct tok as [token|e].
  - eexists _, _, _. split.
    + exact (_request_with_token E c h verb endpoint body query
               token c1 h1 Hrun).
    + unfold tracker_request. cbn [calls url method headers json params].
      rewrite Hurl. repeat split; try done. by intros s ->.
  - by apply _request_without_token.
Qed.

(** The call of the specification's endpoint-composition property, run
    on the scenario: a login, then the tracker call with the new
    token. *)
Example dispatch_projects_5 :
  calls (_request scenario_env "GET" "projects/5/" None None
                  fresh_client []).2 =
  [ mkRequest true "GET" "https://api.apiport.hu/api/tracker/projects/5/"
              [("Authorization", "Bearer T1")] None None;
    mkRequest true "POST" "https://api.apiport.hu/api/accounts/token/" []
              (Some (VDict {[ "email" := VStr "a@b.com";
                              "password" := VStr "secret" ]})) None ].
Proof. vm_compute. reflexivity. Qed.

(** C6.  Error classification: once [_get_token] has returned a token,
    [_request] sends exactly one tracker request and does not send it
    again.  A reply with a status outside 200-299 raises httpx's
    HTTPStatusError, which carries the reply and so its status and body
    (a remote request failure); a call that does not complete raises
    httpx's transport error (a transport failure); a reply with a
    success status and a JSON body returns the decoded body (when the
    body is not JSON, [response.json()] raises instead). *)
Theorem C6_error_classification (E : Env) (c : Client) (h : list event)
    (verb endpoint : string) (body query : option value)
    (token : value) (c1 : Client) (h1 : list event) :
  _get_token E c h = (Ok token, c1, h1) ->
  let req := tracker_request E c1 verb endpoint token body query in
  let out := server E h1 req in
  exists r h',
    _request E verb endpoint body query c h = (r, c1, h') /\
    h' = Call req out :: h1 /\
    calls h' = req :: calls h1 /\
    (forall rep, out = Responded rep -> is_success rep = false ->
       r = Raised (HTTPStatusError (mkResponse req rep)) /\
       RemoteRequestFailure (login_url c) (HTTPStatusError (mkResponse req rep))
                            (status_code rep) (content rep)) /\
    (forall f, out = Failed f ->
       r = Raised (TransportError f req) /\
       TransportFailure (TransportError f req)) /\
    (forall rep data, out = Responded rep -> is_success rep = true ->
       decoded rep = Some data -> r = Ok data) /\
    (forall rep, out = Responded rep -> is_success rep = true ->
       decoded rep = None -> r = Raised JSONDecodeError).
Proof.
  intros Hrun req out.
  rewrite (_request_with_token E c h verb endpoint body query token c1 h1 Hrun).
  fold req out. eexists _, _. do 3 (split; [done|]).
  destruct (_get_token_footprint E c h _ c1 h1 Hrun) as (_ & Hurl & _).
  unfold dispatch_result. split; [|split; [|split]].
  - intros rep Hout Hs. rewrite Hout, Hs. split; [done|].
    unfold RemoteRequestFailure, req, tracker_request. cbn [request reply url].
    rewrite Hurl. split; [apply tracker_url_not_login|done].
  - intros f Hout. by rewrite Hout.
  - intros rep data Hout Hs Hd. by rewrite Hout, Hs, Hd.
  - intros rep Hout Hs Hd. by rewrite Hout, Hs, Hd.
Qed.

Lemma C6_error_classification_witness :
  _get_token rejecting_env client_with_token [] =
    (Ok (VStr "T1"), client_with_token, [Now 0]) /\
  let req :=
    mkRequest true "GET" "https://api.apiport.hu/api/tracker/projects/5/"
              [("Authorization", "Bearer T1")] None None in
  let out := Responded (mkReply 404 "not found" None) in
  exists r h',
    _request rejecting_env "GET" "projects/5/" None None
             client_with_token [] = (r, client_with_token, h') /\
    h' = [Call req out; Now 0] /\
    calls h' = [req] /\
    (forall rep, out = Responded rep -> is_success rep = false ->
       r = Raised (HTTPStatusError (mkResponse req rep)) /\
       RemoteRequestFailure (login_url client_with_token)
                            (HTTPStatusError (mkResponse req rep))
                            (status_code rep) (content rep)) /\
    (forall f, out = Failed f ->
       r = Raised (TransportError f req) /\
       TransportFailure (TransportError f req)) /\
    (forall rep data, out = Responded rep -> is_success rep = true ->
       decoded rep = Some data -> r = Ok data) /\
    (forall rep, out = Responded rep -> is_success rep = true ->
       decoded rep = None -> r = Raised JSONDecodeError).
Proof.
  split; [reflexivity|].
  exact (C6_error_classification rejecting_env client_with_token []
           "GET" "projects/5/" None None (VStr "T1") client_with_token
           [Now 0] eq_refl).
Defined.

(** A dispatch against a server that cannot be reached: the token is
    held, the tracker call fails to connect, and the transport error
    comes back after one attempt. *)
Example dispatch_connection_refused :
  exists req,
    _request unreachable_env "GET" "projects/5/" None None
             client_with_token [] =
    (Raised (TransportError ConnectError req), client_with_token,
     [Call req (Failed ConnectError); Now 0]).
Proof. eexists. vm_compute. reflexivity. Qed.

(* ===================================================================== *)
(** ** The credential invariant *)
(* ===================================================================== *)

Lemma last_mint_Now (auth_url : string) (t : Z) (h : list event) :
  settled auth_url h ->
  last_mint auth_url (Now t :: h) = last_mint auth_url h.
Proof.
  destruct h as [|[t'|req out] h]; simpl; try done. by intros ->.
Qed.

Lemma last_mint_Call (auth_url : string) (req : Request) (out : Outcome)
    (h : list event) :
  last_mint auth_url (Call req out :: h) = last_mint auth_url h.
Proof. done. Qed.

Lemma last_mint_login (auth_url : string) (req : Request) (out : Outcome)
    (a : value) (t : Z) (h : list event) :
  minted auth_url req out = Some a ->
  last_mint auth_url (Now t :: Call req out :: h) = Some (a, t).
Proof. simpl. by intros ->. Qed.

Lemma minted_login_result (req : Request) (out : Outcome) :
  minted (url req) req out =
  match login_result req out with
  | Ok a => Some a
  | Raised _ => None
  end.
Proof.
  unfold minted, login_result. rewrite String.eqb_refl.
  destruct out as [r|f]; [|done].
  destruct (is_success r); [|done].
  destruct (decoded r) as [[| | | | | |d]|]; simpl; try done.
  by destruct (d !! "access").
Qed.

Lemma minted_other_url (auth_url : string) (req : Request) (out : Outcome) :
  url req <> auth_url -> minted auth_url req out = None.
Proof.
  intros Hne. unfold minted.
  destruct (String.eqb_spec (url req) auth_url); [done|done].
Qed.

Lemma checked_keeps (E : Env) (auth_url : string) (c : Client)
    (h : list event) :
  settled auth_url h ->
  settled auth_url (checked E c h) /\
  last_mint auth_url (checked E c h) = last_mint auth_url h.
Proof.
  intros Hs. unfold checked. destruct (held c); [|done].
  split; [done|]. by apply last_mint_Now.
Qed.

Lemma _get_token_keeps (E : Env) (c : Client) (h : list event)
    (tok : result value) (c1 : Client) (h1 : list event) :
  _get_token E c h = (tok, c1, h1) ->
  stamped (login_url c) c h -> settled (login_url c) h ->
  stamped (login_url c) c1 h1 /\ settled (login_url c) h1.
Proof.
  rewrite _get_token_halves. intros Hrun Hst Hse.
  destruct (token_valid c (clock E h)) eqn:Hv.
  - rewrite (_get_token_enter_valid _ _ _ Hv) in Hrun.
    injection Hrun as <- <- <-. split; [|done].
    unfold stamped. by rewrite last_mint_Now.
  - rewrite (_get_token_enter_invalid _ _ _ Hv) in Hrun.
    destruct (checked_keeps E (login_url c) c h Hse) as [Hse1 Hlm1].
    set (req := login_request c) in *.
    set (out := server E _ _) in *.
    pose proof (minted_login_result req out) as Hm.
    change (url req) with (login_url c) in Hm.
    destruct (login_result req out) as [a|e] eqn:Hres.
    + destruct (_get_token_resume_returns E req out c
                  (Call req out :: checked E c h) a Hres)
        as (r & d & _ & _ & _ & _ & Heq).
      rewrite Heq in Hrun. injection Hrun as <- <- <-. split; [|done].
      unfold stamped. by rewrite (last_mint_login _ _ _ a _ _ Hm).
    + rewrite (_get_token_resume_raises E req out c _ e Hres) in Hrun.
      injection Hrun as <- <- <-. split; [|done].
      unfold stamped. by rewrite last_mint_Call, Hlm1.
Qed.

Lemma run_op_keeps (E : Env) (o : op) (c : Client) (h : list event) :
  stamped (login_url c) c h -> settled (login_url c) h ->
  let s := run_op E o (c, h) in
  stamped (login_url c) s.1 s.2 /\ settled (login_url c) s.2 /\
  api_url s.1 = api_url c.
Proof.
  intros Hst Hse. destruct o as [|verb endpoint body query]; simpl.
  - destruct (_get_token E c h) as [[tok c1] h1] eqn:Hrun. simpl.
    destruct (_get_token_keeps E c h tok c1 h1 Hrun Hst Hse).
    destruct (_get_token_footprint E c h tok c1 h1 Hrun) as (_ & Hurl & _).
    done.
  - destruct (_get_token E c h) as [[tok c1] h1] eqn:Hrun.
    destruct (_get_token_keeps E c h tok c1 h1 Hrun Hst Hse) as [Hst1 Hse1].
    destruct (_get_token_footprint E c h tok c1 h1 Hrun) as (_ & Hurl & _).
    destruct tok as [token|e].
    + rewrite (_request_with_token E c h verb endpoint body query
                 token c1 h1 Hrun). simpl.
      split; [|split; [|done]].
      * unfold stamped. by rewrite last_mint_Call.
      * apply minted_other_url. simpl. rewrite Hurl.
        apply tracker_url_not_login.
    + by rewrite (_request_without_token E c h verb endpoint body query
                    e c1 h1 Hrun).
Qed.

Lemma run_ops_keeps (E : Env) (os : list op) (c : Client) (h : list event) :
  stamped (login_url c) c h -> settled (login_url c) h ->
  let s := run_ops E os (c, h) in
  stamped (login_url c) s.1 s.2 /\ api_url s.1 = api_url c.
Proof.
  revert c h. induction os as [|o os IH]; intros c h Hst Hse; [done|].
  simpl. destruct (run_op_keeps E o c h Hst Hse) as (Hst1 & Hse1 & Hurl).
  destruct (run_op E o (c, h)) as [c1 h1]. simpl in *.
  assert (Hl : login_url c1 = login_url c) by (unfold login_url; congruence).
  rewrite <- Hl in Hst1, Hse1.
  destruct (IH c1 h1 Hst1 Hse1) as [Hst2 Hurl2].
  rewrite <- Hl. split; [done|congruence].
Qed.

Lemma __init___fresh (environ : gmap string string)
    (url0 email0 password0 : option string) (flag : bool) (c : Client) :
  __init__ environ url0 email0 password0 flag = Ok c ->
  credential_state c = (VNone, VNone, None).
Proof.
  unfold __init__. repeat case_match; try done; by intros [= <-].
Qed.

(** C8.  Credential invariant: start from a client built by [__init__]
    and run any sequence of [_get_token] and [_request] operations, in
    any world.  If the access value is then set, the history holds a
    successful login that returned this access value, and the expiry is
    the clock reading taken when that login's result was stored, plus
    one hour. *)
Theorem C8_expiry_invariant (E : Env) (environ : gmap string string)
    (url0 email0 password0 : option string) (flag : bool)
    (c0 : Client) (os : list op) (c : Client) (h : list event) :
  __init__ environ url0 email0 password0 flag = Ok c0 ->
  run_ops E os (c0, []) = (c, h) ->
  access_token c <> VNone ->
  exists t,
    last_mint (login_url c) h = Some (access_token c, t) /\
    token_expires_at c = Some (t + hours 1).
Proof.
  intros Hinit Hrun Hset.
  apply __init___fresh in Hinit. injection Hinit as Ha _ He.
  destruct (run_ops_keeps E os c0 []) as [Hst Hurl]; [done|done|].
  rewrite Hrun in Hst, Hurl. simpl in Hst, Hurl.
  assert (Hl : login_url c = login_url c0) by (unfold login_url; congruence).
  rewrite Hl. unfold stamped in Hst.
  destruct (last_mint (login_url c0) h) as [[a t]|].
  - destruct Hst as [<- ->]. by exists t.
  - by destruct Hst.
Qed.

Lemma C8_expiry_invariant_witness :
  access_token scenario_end.1 = VStr "T1" /\
  exists t,
    last_mint (login_url scenario_end.1) scenario_end.2 =
      Some (access_token scenario_end.1, t) /\
    token_expires_at scenario_end.1 = Some (t + hours 1).
Proof.
  split; [reflexivity|].
  apply (C8_expiry_invariant scenario_env
           {[ "APIPORT_EMAIL" := "a@b.com"; "APIPORT_PASSWORD" := "secret" ]}
           None None None true fresh_client scenario_ops
           scenario_end.1 scenario_end.2).
  - vm_compute. reflexivity.
  - vm_compute. reflexivity.
  - vm_compute. discriminate.
Defined.

(* ===================================================================== *)
(** ** Construction *)
(* ===================================================================== *)

(** C9.  The TLS flag: a client constructed with [verify_ssl=False] in an
    environment without VERIFY_SSL stores [True], and its requests are
    sent with verification on; the stored flag is [False] only if
    VERIFY_SSL is set, to a value other than ["true"]. *)
Theorem C9_verify_ssl_false_discarded (environ : gmap string string)
    (url0 email0 password0 : option string) (c : Client) :
  __init__ environ url0 email0 password0 false = Ok c ->
  (environ !! "VERIFY_SSL" = None ->
   verify_ssl c = true /\ verify (login_request c) = true) /\
  (verify_ssl c = false ->
   exists v, environ !! "VERIFY_SSL" = Some v /\ v <> "true").
Proof.
  unfold __init__, getenv_or. intros Hinit.
  assert (Hv : verify_ssl c =
               String.eqb (lower (default "true" (environ !! "VERIFY_SSL")))
                          "true").
  { revert Hinit. repeat case_match; try done; by intros [= <-]. }
  split.
  - intros Hnone. rewrite Hnone in Hv. simpl. by rewrite Hv.
  - intros Hf. rewrite Hf in Hv.
    destruct (environ !! "VERIFY_SSL") as [v|]; [|done].
    exists v. split; [done|]. by intros ->.
Qed.

Lemma C9_verify_ssl_false_discarded_witness :
  (verify_ssl fresh_client = true /\
   verify (login_request fresh_client) = true) /\
  (verify_ssl fresh_client = false ->
   exists v,
     ({[ "APIPORT_EMAIL" := "a@b.com"; "APIPORT_PASSWORD" := "secret" ]}
        : gmap string string) !! "VERIFY_SSL" = Some v /\ v <> "true").
Proof.
  assert (Hinit : __init__ {[ "APIPORT_EMAIL" := "a@b.com";
                              "APIPORT_PASSWORD" := "secret" ]}
                           None None None false = Ok fresh_client).
  { vm_compute. reflexivity. }
  destruct (C9_verify_ssl_false_discarded _ _ _ _ _ Hinit) as [Hunset Honly].
  split; [apply Hunset; reflexivity|exact Honly].
Defined.

(** With VERIFY_SSL set to ["false"] the explicit [False] is kept; set to
    ["TRUE"] it is not, since the value is lower-cased first. *)
Example verify_ssl_env_false :
  verify_ssl <$>
    (match __init__ {[ "VERIFY_SSL" := "false" ]}
                    None (Some "a@b.com") (Some "secret") false with
     | Ok c => Some c
     | Raised _ => None
     end) = Some false.
Proof. reflexivity. Qed.

Example verify_ssl_env_upper_true :
  verify_ssl <$>
    (match __init__ {[ "VERIFY_SSL" := "TRUE" ]}
                    None (Some "a@b.com") (Some "secret") false with
     | Ok c => Some c
     | Raised _ => None
     end) = Some true.
Proof. reflexivity. Qed.

(* ===================================================================== *)
(** ** Domain methods *)
(* ===================================================================== *)

Lemma bind_dict_get_falls_back (dispatch : M value) (key : string)
    (fallback : value) :
  falls_back dispatch
             (data <- dispatch ;; lift (dict_get data key fallback))
             key fallback.
Proof.
  intros c h d c' h' Hrun Hnone. unfold bind, lift, dict_get.
  by rewrite Hrun, Hnone.
Qed.

(** C10.  Missing sub-field: for every domain method that reads a
    sub-field of the dispatched result, a successful dispatch whose body
    is a JSON object without that sub-field makes the method return the
    default of its [.get]: the empty list for the four list-returning
    methods, the empty object for the eight object-returning ones.  The
    dispatch is the one the method makes: same verb, same path; for the
    two create methods the body is the payload the method builds. *)
Theorem C10_missing_subfield_defaults (E : Env) :
  falls_back (_request E "GET" "projects/" None None)
             (list_projects E) "projects" (VList []) /\
  (forall id,
     falls_back (_request E "GET" ("projects/" +:+ pretty id +:+ "/sprints/")
                          None None)
                (list_sprints E id) "sprints" (VList [])) /\
  (forall id,
     falls_back (_request E "GET"
                          ("projects/" +:+ pretty id +:+ "/work-items/")
                          None None)
                (list_work_items E id) "work_items" (VList [])) /\
  (forall id,
     falls_back (_request E "GET" ("projects/" +:+ pretty id +:+ "/backlog/")
                          None None)
                (get_backlog E id) "work_items" (VList [])) /\
  (forall id,
     falls_back (_request E "GET" ("projects/" +:+ pretty id +:+ "/")
                          None None)
                (get_project E id) "project" (VDict ∅)) /\
  (forall id,
     falls_back (_request E "GET" ("sprints/" +:+ pretty id +:+ "/")
                          None None)
                (get_sprint E id) "sprint" (VDict ∅)) /\
  (forall id name goal start_date end_date velocity_target,
     falls_back (_request E "POST"
                          ("projects/" +:+ pretty id +:+ "/sprints/")
                          (Some (VDict (sprint_payload name goal start_date
                                          end_date velocity_target)))
                          None)
                (create_sprint E id name goal start_date end_date
                               velocity_target)
                "sprint" (VDict ∅)) /\
  (forall id,
     falls_back (_request E "POST" ("sprints/" +:+ pretty id +:+ "/activate/")
                          None None)
                (activate_sprint E id) "sprint" (VDict ∅)) /\
  (forall id,
     falls_back (_request E "POST" ("sprints/" +:+ pretty id +:+ "/close/")
                          None None)
                (close_sprint E id) "sprint" (VDict ∅)) /\
  (forall id,
     falls_back (_request E "GET" ("work-items/" +:+ pretty id +:+ "/")
                          None None)
                (get_work_item E id) "work_item" (VDict ∅)) /\
  (forall id title description item_type priority estimate_points
          assignee_id sprint_id parent_id,
     falls_back (_request E "POST"
                          ("projects/" +:+ pretty id +:+ "/work-items/")
                          (Some (VDict (work_item_payload title description
                                          item_type priority estimate_points
                                          assignee_id sprint_id parent_id)))
                          None)
                (create_work_item E id title description item_type priority
                                  estimate_points assignee_id sprint_id
                                  parent_id)
                "work_item" (VDict ∅)) /\
  (forall id kwargs,
     falls_back (_request E "PATCH" ("work-items/" +:+ pretty id +:+ "/")
                          (Some (VDict kwargs)) None)
                (update_work_item E id kwargs) "work_item" (VDict ∅)).
Proof.
  repeat split; intros; apply bind_dict_get_falls_back.
Qed.

Lemma C10_missing_subfield_defaults_witness :
  list_projects empty_object_env client_with_token [] =
    (Ok (VList []), client_with_token,
     [Call (mkRequest true "GET"
                      "https://api.apiport.hu/api/tracker/projects/"
                      [("Authorization", "Bearer T1")] None None)
           (Responded (mkReply 200 "{}" (Some (VDict ∅))));
      Now 0]) /\
  get_project empty_object_env 5 client_with_token [] =
    (Ok (VDict ∅), client_with_token,
     [Call (mkRequest true "GET"
                      "https://api.apiport.hu/api/tracker/projects/5/"
                      [("Authorization", "Bearer T1")] None None)
           (Responded (mkReply 200 "{}" (Some (VDict ∅))));
      Now 0]).
Proof.
  pose proof (C10_missing_subfield_defaults empty_object_env)
    as (Hlist & _ & _ & _ & Hget & _).
  split.
  - apply (Hlist client_with_token [] ∅); reflexivity.
  - apply (Hget 5 client_with_token [] ∅); reflexivity.
Defined.

(* ===================================================================== *)
(** ** Concurrent acquisitions *)
(* ===================================================================== *)

(** C3, as stated, fails: with two concurrent callers and no credential
    held, each caller passes line 36 before any response has arrived, so
    two login calls are sent, and the callers return the access values
    of their own responses, which differ. *)
Lemma C3_single_flight_counterexample :
  no_valid_credential scenario_env fresh_client /\
  tasks racing_pool = [Done (Ok (VStr "T1")); Done (Ok (VStr "T2"))] /\
  login_calls (login_url fresh_client) (history racing_pool) =
    [login_request fresh_client; login_request fresh_client] /\
  ~ single_flight scenario_env 2 fresh_client [] [0; 1; 0; 1]%nat.
Proof.
  split; [intros h; reflexivity|].
  split; [vm_compute; reflexivity|].
  split; [vm_compute; reflexivity|].
  intros [_ Hone]. vm_compute in Hone. discriminate Hone.
Qed.

Local Open Scope list_scope.

Lemma calls_exchanges (h : list event) : calls h = (exchanges h).*1.
Proof.
  induction h as [|[t|req out] h IH]; simpl; [done|done|by rewrite IH].
Qed.

Lemma exchanges_checked (E : Env) (c : Client) (h : list event) :
  exchanges (checked E c h) = exchanges h.
Proof. unfold checked. by destruct (held c). Qed.

Lemma run_app (E : Env) (s1 s2 : list nat) (p : pool) :
  run E (s1 ++ s2) p = run E s2 (run E s1 p).
Proof. unfold run. apply foldl_app. Qed.

(** The second half returns what [login_result] says and adds no call. *)
Lemma _get_token_resume_result (E : Env) (req : Request) (out : Outcome)
    (c : Client) (h : list event) :
  exists c' h',
    _get_token_resume E req out c h = (login_result req out, c', h') /\
    exchanges h' = exchanges h.
Proof.
  destruct (login_result req out) as [a|e] eqn:Hres.
  - destruct (_get_token_resume_returns E req out c h a Hres)
      as (r & d & _ & _ & _ & _ & ->).
    by eexists _, _.
  - rewrite (_get_token_resume_raises E req out c h e Hres).
    by eexists _, _.
Qed.

Section Callers.
Variable E : Env.
Variable c : Client.
Hypothesis Hnone : no_valid_credential E c.

Local Open Scope nat_scope.

(** Once the first [k] of [n] callers have started: the client is
    untouched, each of them waits for the outcome of its own login
    call, and the others have not started. *)
Lemma callers_started (n k : nat) (h : list event) :
  k <= n ->
  exists (outs : list Outcome) (hk : list event),
    length outs = k /\
    run E (seq 0 k) (spawn n c h) =
      mkPool c hk ((Suspended (login_request c) <$> outs)
                     ++ replicate (n - k) Pending) /\
    exchanges hk =
      reverse ((fun out => (login_request c, out)) <$> outs) ++ exchanges h.
Proof.
  induction k as [|k IH]; intros Hk.
  - exists [], h. simpl. by rewrite Nat.sub_0_r.
  - destruct IH as (outs & hk & Hlen & Hrun & Hex); [lia|].
    rewrite seq_S, run_app, Hrun. simpl.
    set (out := server E (checked E c hk) (login_request c)).
    exists (outs ++ [out]), (Call (login_request c) out :: checked E c hk).
    split; [rewrite length_app; simpl; lia|].
    split.
    + unfold step. cbn [tasks shared history].
      assert (Hpend : ((Suspended (login_request c) <$> outs)
                         ++ replicate (n - k) Pending) !! k = Some Pending).
      { rewrite lookup_app_r; rewrite length_fmap, Hlen; [|lia].
        rewrite Nat.sub_diag. destruct (n - k) eqn:Hnk; [lia|done]. }
      rewrite Hpend, (_get_token_enter_invalid E c hk (Hnone hk)).
      fold out. f_equal.
      rewrite fmap_app. simpl. rewrite <- app_assoc. simpl.
      replace k with (length (Suspended (login_request c) <$> outs) + 0)
        at 1 by (rewrite length_fmap; lia).
      rewrite insert_app_r.
      destruct (n - k) as [|m] eqn:Hnk; [lia|].
      replace (n - S k) with m by lia. done.
    + simpl. rewrite exchanges_checked, Hex, fmap_app, reverse_app. done.
Qed.

Lemma resumed_other (i j : nat) (resumed : list nat) :
  j <> i -> bool_decide (j ∈ i :: resumed) = bool_decide (j ∈ resumed).
Proof.
  intros Hne. apply bool_decide_ext. rewrite elem_of_cons.
  split; [by intros [?|?]|by right].
Qed.

Lemma answered_step (outs : list Outcome) (resumed : list nat)
    (p : pool) (i : nat) :
  answered c outs resumed (tasks p) ->
  answered c outs (i :: resumed) (tasks (step E p i)) /\
  exchanges (history (step E p i)) = exchanges (history p).
Proof.
  intros [Hlen Hts]. unfold step.
  destruct (tasks p !! i) as [t|] eqn:Hi.
  - assert (Hlt : i < length outs).
    { rewrite <- Hlen. by eapply lookup_lt_Some. }
    destruct (lookup_lt_is_Some_2 outs i Hlt) as [out Hout].
    pose proof (Hts i out Hout) as Hti. rewrite Hi in Hti.
    injection Hti as ->.
    destruct (bool_decide (i ∈ resumed)) eqn:Hmem.
    + split; [|done]. split; [done|].
      intros j out' Hj. rewrite (Hts j out' Hj).
      destruct (decide (j = i)) as [->|Hne].
      * rewrite Hmem. rewrite bool_decide_eq_true_2; [done|]. by left.
      * by rewrite (resumed_other i j resumed Hne).
    + destruct (_get_token_resume_result E (login_request c) out
                  (shared p) (history p)) as (c' & h' & -> & Hex).
      cbn [tasks history]. split; [|done]. split.
      * by rewrite length_insert.
      * intros j out' Hj. destruct (decide (j = i)) as [->|Hne].
        -- rewrite list_lookup_insert_eq by (rewrite Hlen; done).
           rewrite bool_decide_eq_true_2 by (by left). congruence.
        -- rewrite list_lookup_insert_ne by done. rewrite (Hts j out' Hj).
           by rewrite (resumed_other i j resumed Hne).
  - split; [|done]. split; [done|].
    intros j out' Hj. rewrite (Hts j out' Hj).
    assert (Hne : j <> i).
    { intros ->. apply lookup_lt_Some in Hj. apply lookup_ge_None in Hi. lia. }
    by rewrite (resumed_other i j resumed Hne).
Qed.

Lemma answered_run (outs : list Outcome) (rest resumed : list nat)
    (p : pool) :
  answered c outs resumed (tasks p) ->
  answered c outs (reverse rest ++ resumed) (tasks (run E rest p)) /\
  exchanges (history (run E rest p)) = exchanges (history p).
Proof.
  revert resumed p. induction rest as [|i rest IH]; intros resumed p Hp.
  - done.
  - simpl. destruct (answered_step outs resumed p i Hp) as [Hp1 Hex1].
    destruct (IH (i :: resumed) (step E p i) Hp1) as [Hp2 Hex2].
    rewrite reverse_cons, <- app_assoc. simpl.
    split; [done|congruence].
Qed.

End Callers.

(** C3, amended.  There is no mutual exclusion around the credential
    state.  When [n] callers are started while no valid credential is
    held, and all of them start before the first response is handled,
    every caller sends its own login request: [n] login calls are added
    to the history, one only when [n = 1].  In whatever order the
    responses are then handled, a caller that has been resumed ends
    with the result of its own login call (the access value of its own
    response when the login succeeds), and one that has not is still
    waiting. *)
Theorem C3_every_caller_logs_in (E : Env) (n : nat) (c : Client)
    (h : list event) (rest : list nat) :
  no_valid_credential E c ->
  exists outs : list Outcome,
    length outs = n /\
    exchanges (history (run E (seq 0 n ++ rest) (spawn n c h))) =
      reverse ((fun out => (login_request c, out)) <$> outs)
      ++ exchanges h /\
    length (login_calls (login_url c)
              (history (run E (seq 0 n ++ rest) (spawn n c h)))) =
      (n + length (login_calls (login_url c) h))%nat /\
    length (tasks (run E (seq 0 n ++ rest) (spawn n c h))) = n /\
    forall i out,
      outs !! i = Some out ->
      tasks (run E (seq 0 n ++ rest) (spawn n c h)) !! i =
        Some (if bool_decide (i ∈ rest)
              then Done (login_result (login_request c) out)
              else Suspended (login_request c) out).
Proof.
  intros Hnone.
  destruct (callers_started E c Hnone n n h (le_n n))
    as (outs & hn & Hlen & Hrun & Hex).
  rewrite Nat.sub_diag, app_nil_r in Hrun.
  exists outs. split; [done|].
  rewrite run_app, Hrun.
  set (p := mkPool c hn (Suspended (login_request c) <$> outs)).
  assert (Hp : answered c outs [] (tasks p)).
  { unfold p. cbn [tasks]. split; [by rewrite length_fmap|].
    intros i out Hi. by rewrite list_lookup_fmap, Hi. }
  destruct (answered_run E c outs rest [] p Hp) as [[Hlen2 Hts] Hex2].
  rewrite app_nil_r in Hts.
  assert (Hexs : exchanges (history (run E rest p)) =
                 reverse ((fun out => (login_request c, out)) <$> outs)
                 ++ exchanges h) by (by rewrite Hex2).
  split; [done|]. split; [|split; [congruence|]].
  - unfold login_calls. rewrite !calls_exchanges, Hexs, fmap_app, filter_app.
    rewrite length_app. f_equal.
    rewrite <- fmap_reverse, <- list_fmap_compose.
    rewrite <- Hlen, <- (length_reverse outs).
    generalize (reverse outs). intros l.
    induction l as [|o l IH]; [done|].
    rewrite fmap_cons, filter_cons_True by done. simpl. by rewrite IH.
  - intros i out Hi. rewrite (Hts i out Hi).
    by rewrite (bool_decide_ext (i ∈ reverse rest) (i ∈ rest))
      by apply elem_of_reverse.
Qed.

Lemma C3_every_caller_logs_in_witness :
  no_valid_credential scenario_env fresh_client /\
  exists outs : list Outcome,
    length outs = 2%nat /\
    exchanges (history (run scenario_env (seq 0 2 ++ [1; 0]%nat)
                            (spawn 2 fresh_client []))) =
      reverse ((fun out => (login_request fresh_client, out)) <$> outs)
      ++ exchanges [] /\
    length (login_calls (login_url fresh_client)
              (history (run scenario_env (seq 0 2 ++ [1; 0]%nat)
                            (spawn 2 fresh_client [])))) =
      (2 + length (login_calls (login_url fresh_client) []))%nat /\
    length (tasks (run scenario_env (seq 0 2 ++ [1; 0]%nat)
                       (spawn 2 fresh_client []))) = 2%nat /\
    forall i out,
      outs !! i = Some out ->
      tasks (run scenario_env (seq 0 2 ++ [1; 0]%nat)
                 (spawn 2 fresh_client [])) !! i =
        Some (if bool_decide (i ∈ [1; 0]%nat)
              then Done (login_result (login_request fresh_client) out)
              else Suspended (login_request fresh_client) out).
Proof.
  assert (Hnone : no_valid_credential scenario_env fresh_client).
  { intros h. reflexivity. }
  split; [exact Hnone|].
  exact (C3_every_caller_logs_in scenario_env 2 fresh_client []
                                 [1; 0]%nat Hnone).
Defined.

(* ===================================================================== *)
(** ** More on construction *)
(* ===================================================================== *)

Local Open Scope Z_scope.

Lemma or_else_settles (arg env : option string) :
  match or_else (or_else arg env) None with
  | Some s => settles_on arg env s
  | None => forall s, ~ settles_on arg env s
  end.
Proof.
  unfold or_else, settles_on.
  destruct arg as [a|]; [destruct (String.eqb_spec a "") as [->|Ha]|].
  - destruct env as [e|]; [destruct (String.eqb_spec e "") as [->|He]|].
    + intros s [Hs [[= <-]|[_ [= <-]]]]; done.
    + split; [done|]. right. split; [by right|done].
    + intros s [Hs [[= <-]|[_ [=]]]]. done.
  - destruct (String.eqb_spec a "") as [->|_]; [done|].
    split; [done|by left].
  - destruct env as [e|]; [destruct (String.eqb_spec e "") as [->|He]|].
    + intros s [Hs [[=]|[_ [= <-]]]]. done.
    + split; [done|]. right. split; [by left|done].
    + intros s [Hs [[=]|[_ [=]]]].
Qed.

(** The flag [__init__] stores, and the only exception it raises. *)
Lemma __init___stored_flag (environ : gmap string string)
    (url0 email0 password0 : option string) (flag : bool) (c : Client) :
  __init__ environ url0 email0 password0 flag = Ok c ->
  verify_ssl c =
  if flag then flag
  else String.eqb (lower (default "true" (environ !! "VERIFY_SSL"))) "true".
Proof.
  unfold __init__, getenv_or.
  repeat case_match; try done; by intros [= <-].
Qed.

Lemma __init___raises_ValueError (environ : gmap string string)
    (url0 email0 password0 : option string) (flag : bool) (e : exn) :
  __init__ environ url0 email0 password0 flag = Raised e ->
  e = ValueError "APIPORT_EMAIL and APIPORT_PASSWORD must be set".
Proof.
  unfold __init__. repeat case_match; try done; by intros [= <-].
Qed.

(** X1.  [__init__] needs both credentials: it returns a client exactly
    when a non-empty email and a non-empty password can be settled on
    (argument first, then APIPORT_EMAIL / APIPORT_PASSWORD, an empty
    argument counting as absent), the client stores those two strings
    and starts with an empty credential state; otherwise it raises the
    ValueError of line 32. *)
Theorem init_needs_credentials (environ : gmap string string)
    (url0 email0 password0 : option string) (flag : bool) :
  match __init__ environ url0 email0 password0 flag with
  | Ok c =>
      settles_on email0 (environ !! "APIPORT_EMAIL") (email c) /\
      settles_on password0 (environ !! "APIPORT_PASSWORD") (password c) /\
      credential_state c = (VNone, VNone, None)
  | Raised e =>
      e = ValueError "APIPORT_EMAIL and APIPORT_PASSWORD must be set" /\
      ((forall s, ~ settles_on email0 (environ !! "APIPORT_EMAIL") s) \/
       (forall s, ~ settles_on password0 (environ !! "APIPORT_PASSWORD") s))
  end.
Proof.
  unfold __init__, getenv.
  pose proof (or_else_settles email0 (environ !! "APIPORT_EMAIL")) as He.
  pose proof (or_else_settles password0 (environ !! "APIPORT_PASSWORD")) as Hp.
  destruct (or_else url0 _) as [u|] eqn:Hu.
  - destruct (or_else (or_else email0 _) None) as [e|];
      destruct (or_else (or_else password0 _) None) as [p|]; simpl; auto.
  - exfalso. revert Hu. unfold or_else.
    destruct url0 as [u|]; [|done]. by destruct (String.eqb u "").
Qed.

(** X2.  The base URL: a non-empty [api_url] argument is stored as given;
    otherwise the value of APIPORT_API_URL is stored, even when that
    value is the empty string, and the default applies only when the
    variable is not set at all. *)
Theorem init_api_url (environ : gmap string string)
    (url0 email0 password0 : option string) (flag : bool) (c : Client) :
  __init__ environ url0 email0 password0 flag = Ok c ->
  (forall u, url0 = Some u -> u <> "" -> api_url c = u) /\
  (url0 = None \/ url0 = Some "" ->
   forall v, environ !! "APIPORT_API_URL" = Some v -> api_url c = v) /\
  (url0 = None \/ url0 = Some "" ->
   environ !! "APIPORT_API_URL" = None ->
   api_url c = "https://api.apiport.hu").
Proof.
  unfold __init__, getenv_or. intros Hinit.
  assert (Hu : or_else url0
                 (Some (default "https://api.apiport.hu"
                                (environ !! "APIPORT_API_URL")))
               = Some (api_url c)).
  { revert Hinit. repeat case_match; try done; by intros [= <-]. }
  clear Hinit. unfold or_else in Hu. split; [|split].
  - intros u -> Hne. destruct (String.eqb_spec u ""); [done|].
    by injection Hu.
  - intros Hno v Hv. rewrite Hv in Hu.
    destruct Hno as [->| ->]; simpl in Hu; by injection Hu.
  - intros Hno Hv. rewrite Hv in Hu.
    destruct Hno as [->| ->]; simpl in Hu; by injection Hu.
Qed.

Lemma init_api_url_witness :
  (forall u, (None : option string) = Some u -> u <> "" ->
             api_url fresh_client = u) /\
  ((None : option string) = None \/ (None : option string) = Some "" ->
   forall v,
     ({[ "APIPORT_EMAIL" := "a@b.com"; "APIPORT_PASSWORD" := "secret" ]}
        : gmap string string) !! "APIPORT_API_URL" = Some v ->
     api_url fresh_client = v) /\
  ((None : option string) = None \/ (None : option string) = Some "" ->
   ({[ "APIPORT_EMAIL" := "a@b.com"; "APIPORT_PASSWORD" := "secret" ]}
      : gmap string string) !! "APIPORT_API_URL" = None ->
   api_url fresh_client = "https://api.apiport.hu").
Proof.
  assert (Hinit : __init__ {[ "APIPORT_EMAIL" := "a@b.com";
                              "APIPORT_PASSWORD" := "secret" ]}
                           None None None true = Ok fresh_client).
  { vm_compute. reflexivity. }
  exact (init_api_url _ _ _ _ _ _ Hinit).
Defined.

(** An empty APIPORT_API_URL is taken as the base URL. *)
Example __init___empty_env_url :
  api_url <$>
    (match __init__ {[ "APIPORT_API_URL" := "" ]}
                    None (Some "a@b.com") (Some "secret") true with
     | Ok c => Some c
     | Raised _ => None
     end) = Some "".
Proof. reflexivity. Qed.

Lemma lower_ascii_inv (x l : ascii) :
  lower_ascii x = l ->
  x = l \/ (x = ascii_of_nat (nat_of_ascii l - 32) /\
            (97 <= nat_of_ascii l <= 122)%nat).
Proof.
  unfold lower_ascii. intros H.
  destruct ((65 <=? nat_of_ascii x)%nat && (nat_of_ascii x <=? 90)%nat) eqn:Hc;
    [|by left].
  right. apply andb_prop in Hc as [H1 H2].
  apply Nat.leb_le in H1, H2.
  assert (Hn : nat_of_ascii l = (nat_of_ascii x + 32)%nat).
  { rewrite <- H. rewrite nat_ascii_embedding; lia. }
  split; [|lia].
  rewrite Hn. replace (nat_of_ascii x + 32 - 32)%nat with (nat_of_ascii x) by lia.
  by rewrite ascii_nat_embedding.
Qed.

Lemma lower_spells_true (v : string) :
  lower v = "true" <-> spells_true v.
Proof.
  unfold spells_true. split.
  - destruct v as [|a [|b [|c [|d [|? ?]]]]]; simpl; try done.
    intros [= Ha Hb Hc Hd]. exists a, b, c, d. split; [done|].
    apply lower_ascii_inv in Ha, Hb, Hc, Hd. simpl in *.
    repeat split; [destruct Ha as [?|[? _]]|destruct Hb as [?|[? _]]
                  |destruct Hc as [?|[? _]]|destruct Hd as [?|[? _]]]; auto.
  - intros (a & b & c & d & -> & Ha & Hb & Hc & Hd).
    destruct Ha as [->| ->], Hb as [->| ->], Hc as [->| ->], Hd as [->| ->];
      reflexivity.
Qed.

(** X3.  The TLS flag in full: an explicit [verify_ssl=True] is stored
    whatever the environment says; with [verify_ssl=False] and
    VERIFY_SSL set to [v], verification is on exactly when [v] spells
    "true" in any mix of upper and lower case, so values such as "1" or
    "yes" turn it off. *)
Theorem init_verify_ssl (environ : gmap string string)
    (url0 email0 password0 : option string) (flag : bool) (c : Client) :
  __init__ environ url0 email0 password0 flag = Ok c ->
  (flag = true -> verify_ssl c = true) /\
  (flag = false ->
   forall v, environ !! "VERIFY_SSL" = Some v ->
             (verify_ssl c = true <-> spells_true v)).
Proof.
  intros Hinit.
  pose proof (__init___stored_flag _ _ _ _ _ _ Hinit) as Hv.
  split.
  - intros ->. done.
  - intros -> v Hset. rewrite Hset in Hv. simpl in Hv. rewrite Hv.
    rewrite String.eqb_eq. apply lower_spells_true.
Qed.

Lemma init_verify_ssl_witness :
  (false = true -> verify_ssl fresh_client = true) /\
  (false = false ->
   forall v,
     ({[ "APIPORT_EMAIL" := "a@b.com"; "APIPORT_PASSWORD" := "secret";
         "VERIFY_SSL" := "True" ]}
        : gmap string string) !! "VERIFY_SSL" = Some v ->
     (verify_ssl fresh_client = true <-> spells_true v)).
Proof.
  assert (Hinit : __init__ {[ "APIPORT_EMAIL" := "a@b.com";
                              "APIPORT_PASSWORD" := "secret";
                              "VERIFY_SSL" := "True" ]}
                           None None None false = Ok fresh_client).
  { vm_compute. reflexivity. }
  exact (init_verify_ssl _ _ _ _ _ _ Hinit).
Defined.

(** With VERIFY_SSL set to ["1"] and [verify_ssl=False], verification is
    off. *)
Example verify_ssl_env_one :
  verify_ssl <$>
    (match __init__ {[ "VERIFY_SSL" := "1" ]}
                    None (Some "a@b.com") (Some "secret") false with
     | Ok c => Some c
     | Raised _ => None
     end) = Some false.
Proof. reflexivity. Qed.

(* ===================================================================== *)
(** ** More on the credential manager *)
(* ===================================================================== *)

(** X4.  A login that cannot reach the server: when the stored
    credential does not pass the validity check and the login call does
    not complete, [_get_token] raises httpx's transport error for the
    login request, leaves the client as it was and has sent that one
    request; [_request] ends the same way and sends no tracker
    request. *)
Theorem login_transport_failure (E : Env) (c : Client) (h : list event)
    (f : transport_failure) (verb endpoint : string)
    (body query : option value) :
  token_valid c (clock E h) = false ->
  server E (checked E c h) (login_request c) = Failed f ->
  exists h',
    _get_token E c h = (Raised (TransportError f (login_request c)), c, h') /\
    _request E verb endpoint body query c h =
      (Raised (TransportError f (login_request c)), c, h') /\
    calls h' = login_request c :: calls h.
Proof.
  intros Hinv Hout. eexists.
  assert (Hrun : _get_token E c h =
                 (Raised (TransportError f (login_request c)), c,
                  Call (login_request c) (Failed f) :: checked E c h)).
  { rewrite _get_token_halves, (_get_token_enter_invalid _ _ _ Hinv), Hout.
    done. }
  split; [exact Hrun|]. split.
  - by apply _request_without_token.
  - simpl. unfold checked. by destruct (held c).
Qed.

Lemma login_transport_failure_witness :
  token_valid fresh_client (clock unreachable_env []) = false /\
  exists h',
    _get_token unreachable_env fresh_client [] =
      (Raised (TransportError ConnectError (login_request fresh_client)),
       fresh_client, h') /\
    _request unreachable_env "GET" "projects/" None None fresh_client [] =
      (Raised (TransportError ConnectError (login_request fresh_client)),
       fresh_client, h') /\
    calls h' = [login_request fresh_client].
Proof.
  split; [reflexivity|].
  apply (login_transport_failure unreachable_env fresh_client []
           ConnectError "GET" "projects/" None None); reflexivity.
Defined.

(** X5.  The reuse window after a login: when [_get_token] has logged in
    and returned the access value [a], the expiry it stored is the
    clock reading [t] of line 53 plus one hour, and the next
    [_get_token] sends no request exactly when [a] is truthy and the
    clock then shows an instant before [t] plus 55 minutes, in which
    case it returns [a] again.  A login answered with an empty or
    otherwise falsy access value is therefore never reused. *)
Theorem reuse_window_after_login (E : Env) (c : Client) (h : list event)
    (a : value) (c1 : Client) (h1 : list event) :
  token_valid c (clock E h) = false ->
  _get_token E c h = (Ok a, c1, h1) ->
  exists t h0,
    h1 = Now t :: h0 /\
    access_token c1 = a /\
    token_expires_at c1 = Some (t + hours 1) /\
    (calls (_get_token E c1 h1).2 = calls h1 <->
     truthy a = true /\ clock E h1 < t + minutes 55) /\
    (truthy a = true -> clock E h1 < t + minutes 55 ->
     _get_token E c1 h1 = (Ok a, c1, Now (clock E h1) :: h1)).
Proof.
  intros Hinv Hrun.
  rewrite _get_token_halves, (_get_token_enter_invalid _ _ _ Hinv) in Hrun.
  set (req := login_request c) in *. set (out := server E _ _) in *.
  destruct (login_result req out) as [a'|e] eqn:Hres.
  2: { by rewrite (_get_token_resume_raises E req out c _ e Hres) in Hrun. }
  destruct (_get_token_resume_returns E req out c
              (Call req out :: checked E c h) a' Hres)
    as (r & d & _ & _ & _ & _ & Heq).
  rewrite Heq in Hrun. injection Hrun as <- <- <-.
  eexists _, _. split; [done|]. split; [done|]. split; [done|].
  set (t := clock E (Call req out :: checked E c h)).
  set (c1 := logged_in c a' _ t). set (h1 := Now t :: _).
  assert (Hvalid : token_valid c1 (clock E h1) =
                   truthy a' && bool_decide (clock E h1 < t + minutes 55)).
  { unfold token_valid, c1, logged_in. simpl. f_equal.
    apply bool_decide_ext. unfold hours, minutes. lia. }
  split.
  - rewrite _get_token_halves. split.
    + intros Hcalls.
      destruct (token_valid c1 (clock E h1)) eqn:Hv.
      * symmetry in Hvalid. apply andb_prop in Hvalid as [Ht Hlt].
        by apply bool_decide_eq_true in Hlt.
      * exfalso. rewrite (_get_token_enter_invalid _ _ _ Hv) in Hcalls.
        destruct (_get_token_resume_result E (login_request c1)
                    (server E (checked E c1 h1) (login_request c1)) c1
                    (Call (login_request c1)
                          (server E (checked E c1 h1) (login_request c1))
                       :: checked E c1 h1)) as (c2 & h2 & Hr & Hex).
        rewrite Hr in Hcalls. cbn [snd] in Hcalls.
        assert (Hc2 : calls h2 = login_request c1 :: calls h1).
        { rewrite (calls_exchanges h2), Hex, <- calls_exchanges.
          cbn [calls]. unfold checked. by destruct (held c1). }
        rewrite Hc2 in Hcalls.
        apply (f_equal length) in Hcalls. cbn [length] in Hcalls. lia.
    + intros [Ht Hlt].
      rewrite (_get_token_enter_valid E c1 h1); [done|].
      rewrite Hvalid, Ht. simpl. by apply bool_decide_eq_true.
  - intros Ht Hlt. rewrite _get_token_halves.
    rewrite (_get_token_enter_valid E c1 h1); [done|].
    rewrite Hvalid, Ht. simpl. by apply bool_decide_eq_true.
Qed.

Lemma reuse_window_after_login_witness :
  token_valid fresh_client (clock scenario_env []) = false /\
  exists t h0,
    scenario_login.2 = Now t :: h0 /\
    access_token scenario_login.1.2 = VStr "T1" /\
    token_expires_at scenario_login.1.2 = Some (t + hours 1) /\
    (calls (_get_token scenario_env scenario_login.1.2 scenario_login.2).2 =
       calls scenario_login.2 <->
     truthy (VStr "T1") = true /\
     clock scenario_env scenario_login.2 < t + minutes 55) /\
    (truthy (VStr "T1") = true ->
     clock scenario_env scenario_login.2 < t + minutes 55 ->
     _get_token scenario_env scenario_login.1.2 scenario_login.2 =
       (Ok (VStr "T1"), scenario_login.1.2,
        Now (clock scenario_env scenario_login.2) :: scenario_login.2)).
Proof.
  split; [reflexivity|].
  apply (reuse_window_after_login scenario_env fresh_client [] (VStr "T1")
           scenario_login.1.2 scenario_login.2).
  - reflexivity.
  - vm_compute. reflexivity.
Defined.

(** With such a server, a second acquisition logs in again. *)
Example empty_token_never_reused :
  length (calls (run_ops empty_token_env [GetToken; GetToken]
                         (fresh_client, [])).2) = 2%nat.
Proof. vm_compute. reflexivity. Qed.

(* ===================================================================== *)
(** ** More on the request dispatcher *)
(* ===================================================================== *)

(** X6.  The footprint of [_request]: it never changes the identity
    (base URL, email, password, TLS flag), and it ends in one of three
    ways: the held token was reused, the client is untouched and the one
    request sent is the tracker request; or a login was made and the
    tracker request follows it; or the login was the only request, the
    client is untouched and an exception is raised.  So it sends one or
    two requests, never a tracker request before the login, and never
    alters the credential state without a login. *)
Theorem request_footprint (E : Env) (c : Client) (h : list event)
    (verb endpoint : string) (body query : option value)
    (r : result value) (c' : Client) (h' : list event) :
  _request E verb endpoint body query c h = (r, c', h') ->
  (api_url c' = api_url c /\ email c' = email c /\
   password c' = password c /\ verify_ssl c' = verify_ssl c) /\
  ((c' = c /\
    calls h' = tracker_request E c verb endpoint (access_token c) body query
                 :: calls h) \/
   (exists token,
      calls h' = tracker_request E c verb endpoint token body query
                   :: login_request c :: calls h) \/
   (c' = c /\ calls h' = login_request c :: calls h /\
    exists e, r = Raised e)).
Proof.
  intros Hreq.
  pose proof (_get_token_halves E c h) as Hrun.
  assert (Hc : calls (checked E c h) = calls h).
  { unfold checked. by destruct (held c). }
  destruct (token_valid c (clock E h)) eqn:Hval.
  - rewrite (_get_token_enter_valid _ _ _ Hval) in Hrun.
    rewrite (_request_with_token E c h verb endpoint body query _ _ _ Hrun)
      in Hreq.
    injection Hreq as <- <- <-. split; [done|]. by left.
  - rewrite (_get_token_enter_invalid _ _ _ Hval) in Hrun.
    set (out := server E _ _) in Hrun.
    destruct (login_result (login_request c) out) as [a|e] eqn:Hres.
    + destruct (_get_token_resume_returns E _ out c
                  (Call (login_request c) out :: checked E c h) a Hres)
        as (rep & d & _ & _ & _ & _ & Heq).
      rewrite Heq in Hrun.
      rewrite (_request_with_token E c h verb endpoint body query _ _ _ Hrun)
        in Hreq.
      injection Hreq as <- <- <-. split; [done|]. right. left.
      exists a. cbn [calls]. by rewrite Hc.
    + rewrite (_get_token_resume_raises E _ out c _ e Hres) in Hrun.
      rewrite (_request_without_token E c h verb endpoint body query
                 _ _ _ Hrun) in Hreq.
      injection Hreq as <- <- <-. split; [done|]. right. right.
      split; [done|]. split; [by rewrite <- Hc|by eexists].
Qed.

Lemma request_footprint_witness :
  (api_url (_request scenario_env "GET" "projects/" None None
                     fresh_client []).1.2 = api_url fresh_client /\
   email (_request scenario_env "GET" "projects/" None None
                   fresh_client []).1.2 = email fresh_client /\
   password (_request scenario_env "GET" "projects/" None None
                      fresh_client []).1.2 = password fresh_client /\
   verify_ssl (_request scenario_env "GET" "projects/" None None
                        fresh_client []).1.2 = verify_ssl fresh_client) /\
  (((_request scenario_env "GET" "projects/" None None
              fresh_client []).1.2 = fresh_client /\
    calls (_request scenario_env "GET" "projects/" None None
                    fresh_client []).2 =
      [tracker_request scenario_env fresh_client "GET" "projects/"
                       (access_token fresh_client) None None]) \/
   (exists token,
      calls (_request scenario_env "GET" "projects/" None None
                      fresh_client []).2 =
        [tracker_request scenario_env fresh_client "GET" "projects/"
                         token None None;
         login_request fresh_client]) \/
   ((_request scenario_env "GET" "projects/" None None
              fresh_client []).1.2 = fresh_client /\
    calls (_request scenario_env "GET" "projects/" None None
                    fresh_client []).2 = [login_request fresh_client] /\
    exists e, (_request scenario_env "GET" "projects/" None None
                        fresh_client []).1.1 = Raised e)).
Proof.
  apply (request_footprint scenario_env fresh_client [] "GET" "projects/"
           None None).
  by destruct (_request scenario_env "GET" "projects/" None None
                        fresh_client []) as [[? ?] ?].
Defined.

(* ===================================================================== *)
(** ** More on the domain methods *)
(* ===================================================================== *)

(** Each field-reading method is its dispatch followed by a [.get] on
    its key. *)
Lemma run_reader_get (E : Env) (rd : reader) :
  exists fallback,
    run_reader E rd =
    (data <- reader_dispatch E rd ;;
     lift (dict_get data (reader_key rd) fallback))%method.
Proof. destruct rd; eexists; reflexivity. Qed.

(** X7.  A body that is not a JSON object: when the dispatch of a
    field-reading method succeeds with a list, a string, a number, a
    boolean or null, the method raises AttributeError (the body has no
    [.get]); the request has been sent and the client and history are
    those the dispatch left. *)
Theorem reader_rejects_non_object (E : Env) (rd : reader) (c : Client)
    (h : list event) (data : value) (c' : Client) (h' : list event) :
  reader_dispatch E rd c h = (Ok data, c', h') ->
  (forall d, data <> VDict d) ->
  run_reader E rd c h = (Raised AttributeError, c', h').
Proof.
  intros Hrun Hno. destruct (run_reader_get E rd) as [fallback ->].
  unfold bind, lift. rewrite Hrun.
  destruct data; try done. by destruct (Hno d).
Qed.

Lemma reader_rejects_non_object_witness :
  (forall d, VList [] <> VDict d) /\
  run_reader list_body_env (GetProject 5) client_with_token [] =
    (Raised AttributeError, client_with_token,
     [Call (mkRequest true "GET"
                      "https://api.apiport.hu/api/tracker/projects/5/"
                      [("Authorization", "Bearer T1")] None None)
           (Responded (mkReply 200 "[]" (Some (VList []))));
      Now 0]).
Proof.
  assert (Hno : forall d, VList [] <> VDict d) by done.
  split; [exact Hno|].
  apply (reader_rejects_non_object list_body_env (GetProject 5)
           client_with_token [] (VList [])); [reflexivity|exact Hno].
Defined.

(** X8.  A sub-field that is present is returned as it is, whatever its
    type: the default of [.get] applies only to a missing key, so a
    field holding null comes back as [None], not as the empty list or
    object. *)
Theorem reader_returns_field (E : Env) (rd : reader) (c : Client)
    (h : list event) (d : gmap string value) (v : value)
    (c' : Client) (h' : list event) :
  reader_dispatch E rd c h = (Ok (VDict d), c', h') ->
  d !! reader_key rd = Some v ->
  run_reader E rd c h = (Ok v, c', h').
Proof.
  intros Hrun Hv. destruct (run_reader_get E rd) as [fallback ->].
  unfold bind, lift, dict_get. by rewrite Hrun, Hv.
Qed.

Lemma reader_returns_field_witness :
  run_reader null_field_env ListProjects client_with_token [] =
    (Ok VNone, client_with_token,
     [Call (mkRequest true "GET"
                      "https://api.apiport.hu/api/tracker/projects/"
                      [("Authorization", "Bearer T1")] None None)
           (Responded
              (mkReply 200 "" (Some (VDict {[ "projects" := VNone ]}))));
      Now 0]).
Proof.
  apply (reader_returns_field null_field_env ListProjects
           client_with_token [] {[ "projects" := VNone ]} VNone);
    reflexivity.
Defined.

(** [payload[key]] after an [if v: payload[key] = v]. *)
Lemma lookup_set_if (key k : string) (v : value)
    (payload : gmap string value) :
  set_if key v payload !! k =
  if decide (key = k) then
    (if truthy v then Some v else payload !! k)
  else payload !! k.
Proof.
  unfold set_if. destruct (truthy v).
  - by rewrite lookup_insert.
  - by case_decide.
Qed.

(** X9.  The body [create_sprint] sends: ["name"] and ["status"] are
    always there, the status is always ["planned"]; each of ["goal"],
    ["start_date"], ["end_date"], ["velocity_target"] is there exactly
    when its argument is truthy, so an empty string or a velocity
    target of 0 is left out like [None]; no other key is sent. *)
Theorem sprint_payload_fields (name : string)
    (goal start_date end_date velocity_target : value) (k : string) :
  sprint_payload name goal start_date end_date velocity_target !! k =
  if decide (k = "name") then Some (VStr name)
  else if decide (k = "status") then Some (VStr "planned")
  else if decide (k = "goal") then
    (if truthy goal then Some goal else None)
  else if decide (k = "start_date") then
    (if truthy start_date then Some start_date else None)
  else if decide (k = "end_date") then
    (if truthy end_date then Some end_date else None)
  else if decide (k = "velocity_target") then
    (if truthy velocity_target then Some velocity_target else None)
  else None.
Proof.
  unfold sprint_payload. rewrite !lookup_set_if.
  rewrite !lookup_insert, lookup_singleton.
  repeat case_decide; subst; try done; by repeat case_match.
Qed.

(** X10.  The body [create_work_item] sends: ["title"], ["item_type"],
    ["priority"] and ["status"] are always there, the priority even when
    it is 0 and the status always ["todo"]; each of ["description"],
    ["estimate_points"], ["assignee_id"], ["sprint_id"], ["parent_id"]
    is there exactly when its argument is truthy, so an estimate of 0
    points or an id of 0 is left out; no other key is sent. *)
Theorem work_item_payload_fields (title : string) (description : value)
    (item_type : string) (priority : Z)
    (estimate_points assignee_id sprint_id parent_id : value) (k : string) :
  work_item_payload title description item_type priority estimate_points
                    assignee_id sprint_id parent_id !! k =
  if decide (k = "title") then Some (VStr title)
  else if decide (k = "item_type") then Some (VStr item_type)
  else if decide (k = "priority") then Some (VInt priority)
  else if decide (k = "status") then Some (VStr "todo")
  else if decide (k = "description") then
    (if truthy description then Some description else None)
  else if decide (k = "estimate_points") then
    (if truthy estimate_points then Some estimate_points else None)
  else if decide (k = "assignee_id") then
    (if truthy assignee_id then Some assignee_id else None)
  else if decide (k = "sprint_id") then
    (if truthy sprint_id then Some sprint_id else None)
  else if decide (k = "parent_id") then
    (if truthy parent_id then Some parent_id else None)
  else None.
Proof.
  unfold work_item_payload. rewrite !lookup_set_if.
  rewrite !lookup_insert, lookup_singleton.
  repeat case_decide; subst; try done; by repeat case_match.
Qed.

(** A sprint created with an empty goal and a velocity target of 0: only
    the name and the status are sent. *)
Example sprint_payload_drops_falsy :
  sprint_payload "S1" (VStr "") VNone VNone (VInt 0) =
  {[ "name" := VStr "S1"; "status" := VStr "planned" ]}.
Proof. reflexivity. Qed.

(* ===================================================================== *)
(** ** The server's client and resources *)
(* ===================================================================== *)

(** X11.  The server always verifies TLS: [get_client] constructs the
    client with [verify_ssl] at its default [True], which [__init__]
    keeps without looking at VERIFY_SSL; so whatever the environment
    holds, the client the server creates has [verify_ssl = True], and
    its login request is sent with verification on. *)
Theorem get_client_always_verifies (environ : gmap string string)
    (c : Client) (g' : option Client) :
  get_client environ None = (Ok c, g') ->
  verify_ssl c = true /\ verify (login_request c) = true.
Proof.
  unfold get_client.
  destruct (__init__ environ None None None true) as [c0|e] eqn:Hinit;
    [|done].
  intros [= <- <-].
  pose proof (__init___stored_flag _ _ _ _ _ _ Hinit) as Hon.
  split; [|simpl]; exact Hon.
Qed.

Lemma get_client_always_verifies_witness :
  get_client no_verify_environ None = (Ok fresh_client, Some fresh_client) /\
  verify_ssl fresh_client = true /\
  verify (login_request fresh_client) = true.
Proof.
  assert (Hget : get_client no_verify_environ None =
                 (Ok fresh_client, Some fresh_client)).
  { vm_compute. reflexivity. }
  split; [exact Hget|].
  exact (get_client_always_verifies no_verify_environ fresh_client
           (Some fresh_client) Hget).
Defined.

(** X12.  The client singleton: when [get_client] returns a client, the
    global holds it, and every later call returns that same client
    whatever the environment has become; when it raises, the global was
    and stays unset and the exception is the ValueError of the
    constructor, so the next call constructs again from the environment
    of that moment. *)
Theorem get_client_singleton (environ : gmap string string)
    (g : option Client) (r : result Client) (g' : option Client) :
  get_client environ g = (r, g') ->
  match r with
  | Ok c =>
      g' = Some c /\
      forall environ', get_client environ' g' = (Ok c, g')
  | Raised e =>
      g = None /\ g' = None /\
      e = ValueError "APIPORT_EMAIL and APIPORT_PASSWORD must be set" /\
      forall environ', get_client environ' g' =
                       match __init__ environ' None None None true with
                       | Ok c => (Ok c, Some c)
                       | Raised e' => (Raised e', None)
                       end
  end.
Proof.
  unfold get_client. destruct g as [c|].
  - intros [= <- <-]. done.
  - destruct (__init__ environ None None None true) as [c|e] eqn:Hinit.
    + intros [= <- <-]. done.
    + intros [= <- <-].
      by rewrite (__init___raises_ValueError _ _ _ _ _ _ Hinit).
Qed.

Lemma get_client_singleton_witness :
  Some fresh_client = Some fresh_client /\
  forall environ',
    get_client environ' (Some fresh_client) =
    (Ok fresh_client, Some fresh_client).
Proof.
  assert (Hget : get_client no_verify_environ None =
                 (Ok fresh_client, Some fresh_client)).
  { vm_compute. reflexivity. }
  exact (get_client_singleton no_verify_environ None (Ok fresh_client)
           (Some fresh_client) Hget).
Defined.

(** [str.split] on small inputs. *)
Example py_split_examples :
  py_split "//" "sprint://12" = ["sprint:"; "12"] /\
  py_split "//" "a///b" = ["a"; "/b"] /\
  py_split "//" "////" = [""; ""; ""] /\
  py_split "//" "" = [""] /\
  py_split "//" "project://5//x//y" = ["project:"; "5"; "x"; "y"].
Proof. repeat split; reflexivity. Qed.

Lemma append_nil_l (s : string) : "" +:+ s = s.
Proof. reflexivity. Qed.

Lemma append_nil_r (s : string) : s +:+ "" = s.
Proof.
  induction s as [|ch s IH]; [done|].
  change (String ch s +:+ "") with (String ch (s +:+ "")). by rewrite IH.
Qed.

Lemma append_cons (ch : ascii) (a s : string) :
  String ch a +:+ s = String ch (a +:+ s).
Proof. reflexivity. Qed.

Lemma prefix_sep_other (ch : ascii) (s : string) :
  ch <> "/"%char -> String.prefix "//" (String ch s) = false.
Proof.
  intros Hne.
  change (String.prefix "//" (String ch s))
    with (if ascii_dec "/" ch then String.prefix "/" s else false).
  destruct (ascii_dec "/" ch); [congruence|done].
Qed.

Lemma split_go_cons (sep : string) (ch : ascii) (s : string) :
  split_go sep 0 (String ch s) =
  if String.prefix sep (String ch s) then
    let '(piece, pieces) := split_go sep (String.length sep - 1) s in
    (EmptyString, piece :: pieces)
  else
    let '(piece, pieces) := split_go sep 0 s in
    (String ch piece, pieces).
Proof. reflexivity. Qed.

Lemma split_go_no_slash (a rest : string) :
  no_slash a = true ->
  split_go "//" 0 (a +:+ rest) =
  ((a +:+ (split_go "//" 0 rest).1), (split_go "//" 0 rest).2).
Proof.
  induction a as [|ch a IH].
  - intros _. rewrite !append_nil_l. by destruct (split_go "//" 0 rest).
  - intros Hns. cbn [no_slash] in Hns. apply andb_prop in Hns as [Hch Ha].
    destruct (Ascii.eqb_spec ch "/") as [->|Hne]; [done|].
    rewrite !append_cons, split_go_cons.
    by rewrite (prefix_sep_other ch _ Hne), (IH Ha).
Qed.

Lemma split_go_sep (b : string) :
  split_go "//" 0 ("//" +:+ b) =
  ("", (split_go "//" 0 b).1 :: (split_go "//" 0 b).2).
Proof.
  rewrite !append_cons, append_nil_l, split_go_cons.
  replace (String.prefix "//" (String "/" (String "/" b))) with true
    by (by destruct b).
  change (split_go "//" (String.length "//" - 1) (String "/" b))
    with (split_go "//" 0 b).
  by destruct (split_go "//" 0 b).
Qed.

(** The second piece of [pre // a] and of [pre // a // b] is [a], when
    neither [pre] nor [a] holds a slash. *)
Lemma py_split_second (pre a : string) :
  no_slash pre = true -> no_slash a = true ->
  py_split "//" (pre +:+ "//" +:+ a) !! 1%nat = Some a /\
  forall b, py_split "//" (pre +:+ "//" +:+ a +:+ "//" +:+ b) !! 1%nat
            = Some a.
Proof.
  intros Hpre Ha. unfold py_split. split; [|intros b].
  - rewrite (split_go_no_slash pre _ Hpre), split_go_sep. cbn [fst snd].
    rewrite <- (append_nil_r a) at 1 2.
    rewrite (split_go_no_slash a "" Ha). cbn.
    by rewrite append_nil_r.
  - rewrite (split_go_no_slash pre _ Hpre), split_go_sep. cbn [fst snd].
    rewrite (split_go_no_slash a _ Ha), split_go_sep. cbn.
    by rewrite append_nil_r.
Qed.

Lemma prefix_append (p s : string) : String.prefix p (p +:+ s) = true.
Proof.
  induction p as [|ch p IH].
  - rewrite append_nil_l. by destruct s.
  - rewrite append_cons.
    change (String.prefix (String ch p) (String ch (p +:+ s)))
      with (if ascii_dec ch ch then String.prefix p (p +:+ s) else false).
    by destruct (ascii_dec ch ch).
Qed.

Lemma no_slash_append (a b : string) :
  no_slash (a +:+ b) = no_slash a && no_slash b.
Proof.
  induction a as [|ch a IH]; [by rewrite append_nil_l|].
  rewrite append_cons. cbn [no_slash]. by rewrite IH, andb_assoc.
Qed.

Section ResourceFacts.
Variable E : Env.
Variable environ : gmap string string.
Variable py_int : string -> result Z.
Variable json_dumps : value -> string.

Lemma read_resource_routes (sc : scheme) (rest : string) :
  scheme_prefix sc +:+ rest <> "project://list" ->
  read_resource E environ py_int json_dumps (scheme_prefix sc +:+ rest) =
  dump_of environ json_dumps
          (resource_id py_int (scheme_prefix sc +:+ rest))
          (scheme_method E sc).
Proof.
  intros Hne. unfold read_resource.
  apply String.eqb_neq in Hne. rewrite Hne.
  destruct sc; cbn [scheme_prefix scheme_method].
  - by rewrite prefix_append.
  - rewrite (prefix_append "sprint://" rest).
    by destruct rest.
  - rewrite (prefix_append "backlog://" rest).
    by destruct rest.
Qed.

Lemma resource_id_first_segment (sc : scheme) (a : string) :
  no_slash a = true ->
  resource_id py_int (scheme_prefix sc +:+ a) = parsed py_int a /\
  forall b,
    resource_id py_int (scheme_prefix sc +:+ a +:+ "//" +:+ b)
    = parsed py_int a.
Proof.
  intros Ha. unfold resource_id, parsed.
  assert (Hpre : exists pre, no_slash pre = true /\
                             forall s, scheme_prefix sc +:+ s
                                       = pre +:+ "//" +:+ s).
  { destruct sc; [exists "project:"|exists "sprint:"|exists "backlog:"];
      by split. }
  destruct Hpre as (pre & Hpre & Heq). rewrite !Heq.
  destruct (py_split_second pre a Hpre Ha) as [H1 H2].
  split; [by rewrite H1|]. intros b. by rewrite Heq, (H2 b).
Qed.

End ResourceFacts.

Lemma scheme_uri_not_list (sc : scheme) (a : string) :
  no_slash a = true ->
  (sc = ProjectScheme -> a <> "list") ->
  scheme_prefix sc +:+ a <> "project://list" /\
  forall b, scheme_prefix sc +:+ a +:+ "//" +:+ b <> "project://list".
Proof.
  intros Ha Hlist. destruct sc; cbn [scheme_prefix].
  - split; [|intros b]; intros Heq;
      apply (append_inj_l "project://" _ "list") in Heq.
    + by apply Hlist.
    + apply (f_equal no_slash) in Heq.
      rewrite no_slash_append, Ha in Heq. discriminate Heq.
  - split; [|intros b]; rewrite !append_cons; discriminate.
  - split; [|intros b]; rewrite !append_cons; discriminate.
Qed.

(** X13.  The id of a resource URI is its first segment: for
    [project://a], [sprint://a] and [backlog://a], with no slash in [a]
    (and [a] other than "list" for the project scheme, which names the
    list of projects), [read_resource] applies [int] to [a] and calls
    [get_project], [get_sprint] or [get_backlog] with the result; and it
    does exactly the same for [scheme://a//b], whatever [b] is: what
    follows a second double slash is ignored. *)
Theorem read_resource_id_segment (E : Env) (environ : gmap string string)
    (py_int : string -> result Z) (json_dumps : value -> string)
    (sc : scheme) (a : string) (g : option Client) (h : list event) :
  no_slash a = true ->
  (sc = ProjectScheme -> a <> "list") ->
  read_resource E environ py_int json_dumps (scheme_prefix sc +:+ a) g h =
    dump_of environ json_dumps (parsed py_int a) (scheme_method E sc) g h /\
  forall b,
    read_resource E environ py_int json_dumps
                  (scheme_prefix sc +:+ a +:+ "//" +:+ b) g h =
    dump_of environ json_dumps (parsed py_int a) (scheme_method E sc) g h.
Proof.
  intros Ha Hlist.
  destruct (scheme_uri_not_list sc a Ha Hlist) as [Hne1 Hne2].
  destruct (resource_id_first_segment py_int sc a Ha) as [Hid1 Hid2].
  split; [|intros b].
  - by rewrite (read_resource_routes E environ py_int json_dumps sc a Hne1),
               Hid1.
  - by rewrite (read_resource_routes E environ py_int json_dumps sc _
                  (Hne2 b)), (Hid2 b).
Qed.

Lemma read_resource_id_segment_witness :
  read_resource scenario_env no_verify_environ int_5_only (fun _ => "")
                "sprint://5" None [] =
    dump_of no_verify_environ (fun _ => "") (Returns 5)
            (get_sprint scenario_env) None [] /\
  forall b,
    read_resource scenario_env no_verify_environ int_5_only (fun _ => "")
                  ("sprint://" +:+ "5" +:+ "//" +:+ b) None [] =
    dump_of no_verify_environ (fun _ => "") (Returns 5)
            (get_sprint scenario_env) None [].
Proof.
  apply (read_resource_id_segment scenario_env no_verify_environ int_5_only
           (fun _ => "") SprintScheme "5" None []); [reflexivity|done].
Defined.

(** X14.  A refused URI leaves no trace: when [int] rejects the id text
    (as for [sprint://list], [backlog://list] or [project://]),
    [read_resource] raises that error before the client is looked up,
    and when the URI starts with none of the three schemes it raises
    ValueError("Unknown resource: ..."); in both cases the global client
    is as before, no client is constructed and nothing is sent. *)
Theorem read_resource_refusals (E : Env) (environ : gmap string string)
    (py_int : string -> result Z) (json_dumps : value -> string)
    (g : option Client) (h : list event) :
  (forall sc a e,
     no_slash a = true ->
     (sc = ProjectScheme -> a <> "list") ->
     py_int a = Raised e ->
     read_resource E environ py_int json_dumps (scheme_prefix sc +:+ a) g h
     = (Raises (ClientError e), g, h)) /\
  (forall uri,
     uri <> "project://list" ->
     String.prefix "project://" uri = false ->
     String.prefix "sprint://" uri = false ->
     String.prefix "backlog://" uri = false ->
     read_resource E environ py_int json_dumps uri g h =
     (Raises (ClientError (ValueError ("Unknown resource: " +:+ uri))),
      g, h)).
Proof.
  split.
  - intros sc a e Ha Hlist Hint.
    destruct (scheme_uri_not_list sc a Ha Hlist) as [Hne _].
    destruct (resource_id_first_segment py_int sc a Ha) as [Hid _].
    rewrite (read_resource_routes E environ py_int json_dumps sc a Hne), Hid.
    unfold dump_of, parsed. by rewrite Hint.
  - intros uri Hne Hp Hs Hb. unfold read_resource.
    apply String.eqb_neq in Hne. by rewrite Hne, Hp, Hs, Hb.
Qed.

Lemma read_resource_refusals_witness :
  read_resource scenario_env no_verify_environ int_5_only (fun _ => "")
                "backlog://list" None [] =
    (Raises (ClientError
               (ValueError "invalid literal for int() with base 10")),
     None, []) /\
  read_resource scenario_env no_verify_environ int_5_only (fun _ => "")
                "item://5" None [] =
    (Raises (ClientError (ValueError "Unknown resource: item://5")),
     None, []).
Proof.
  destruct (read_resource_refusals scenario_env no_verify_environ int_5_only
              (fun _ => "") None []) as [Hid Hunknown].
  split.
  - apply (Hid BacklogScheme "list"); [reflexivity|done|reflexivity].
  - apply (Hunknown "item://5"); [done|reflexivity..].
Defined.

(** Reading [project://list] lists the projects; reading [sprint://list]
    fails in [int]. *)
Example read_resource_list :
  read_resource scenario_env no_verify_environ int_5_only (fun _ => "dump")
                "project://list" None [] =
    (Returns "dump",
     Some (logged_in fresh_client (VStr "T1") VNone 1000000),
     (_request scenario_env "GET" "projects/" None None fresh_client []).2)
  /\
  read_resource scenario_env no_verify_environ int_5_only (fun _ => "dump")
                "sprint://list" None [] =
    (Raises (ClientError
               (ValueError "invalid literal for int() with base 10")),
     None, []).
Proof. split; vm_compute; reflexivity. Qed.

(* ===================================================================== *)
(** ** More on concurrent callers *)
(* ===================================================================== *)

Section Bound.
Local Open Scope nat_scope.

Lemma started_count_insert (ts : list task) (i : nat) (x y : task) :
  ts !! i = Some y ->
  started_count (<[i := x]> ts) + (if started y then 1 else 0) =
  started_count ts + (if started x then 1 else 0).
Proof.
  revert i. induction ts as [|t ts IH]; intros i Hi; [done|].
  destruct i as [|i]; simpl in *.
  - injection Hi as ->. lia.
  - specialize (IH i Hi). lia.
Qed.

Lemma started_count_le (ts : list task) : started_count ts <= length ts.
Proof.
  induction ts as [|t ts IH]; simpl; [done|]. destruct (started t); lia.
Qed.

Lemma bounded_step (E : Env) (c : Client) (h : list event) (n : nat)
    (p : pool) (i : nat) :
  bounded c h n p -> bounded c h n (step E p i).
Proof.
  intros Hb. pose proof Hb as (Hreq & Hlen & outs & Hcount & Hex).
  unfold step.
  destruct (tasks p !! i) as [[|req out|r]|] eqn:Hi; try exact Hb.
  - destruct (token_valid (shared p) (clock E (history p))) eqn:Hv.
    + rewrite (_get_token_enter_valid E _ _ Hv).
      split; [by rewrite <- Hreq|]. split; [cbn [tasks]; by rewrite length_insert|].
      exists outs. split; [|done]. cbn [tasks].
      pose proof (started_count_insert (tasks p) i
                    (Done (Ok (access_token (shared p)))) Pending Hi) as Hc.
      simpl in Hc. lia.
    + rewrite (_get_token_enter_invalid E _ _ Hv).
      split; [by rewrite <- Hreq|]. split; [cbn [tasks]; by rewrite length_insert|].
      exists (outs ++ [server E (checked E (shared p) (history p))
                              (login_request (shared p))]).
      cbn [tasks history]. split.
      * pose proof (started_count_insert (tasks p) i
                      (Suspended (login_request (shared p))
                         (server E (checked E (shared p) (history p))
                                 (login_request (shared p))))
                      Pending Hi) as Hc.
        simpl in Hc. rewrite length_app. simpl. lia.
      * cbn [exchanges]. rewrite exchanges_checked, Hex, Hreq.
        by rewrite fmap_app, reverse_app.
  - destruct (login_result req out) as [a|e] eqn:Hres.
    + destruct (_get_token_resume_returns E req out (shared p) (history p)
                  a Hres) as (rep & d & _ & _ & _ & _ & ->).
      split; [by rewrite <- Hreq|]. split; [cbn [tasks]; by rewrite length_insert|].
      exists outs. cbn [tasks history]. split; [|done].
      pose proof (started_count_insert (tasks p) i (Done (Ok a))
                    (Suspended req out) Hi) as Hc.
      simpl in Hc. lia.
    + rewrite (_get_token_resume_raises E req out (shared p) (history p)
                 e Hres).
      split; [by rewrite <- Hreq|]. split; [cbn [tasks]; by rewrite length_insert|].
      exists outs. cbn [tasks history]. split; [|done].
      pose proof (started_count_insert (tasks p) i (Done (Raised e))
                    (Suspended req out) Hi) as Hc.
      simpl in Hc. lia.
Qed.

Lemma bounded_run (E : Env) (c : Client) (h : list event) (n : nat)
    (schedule : list nat) (p : pool) :
  bounded c h n p -> bounded c h n (run E schedule p).
Proof.
  revert p. induction schedule as [|i schedule IH]; intros p Hp; [done|].
  simpl. apply IH. by apply bounded_step.
Qed.

End Bound.

(** X15.  At most one login per caller: run [n] concurrent callers of
    [_get_token] under any schedule, from any client and in any world.
    Every request sent is the login request of the client, and there
    are at most [n] of them: a caller never logs in twice, and no caller
    sends anything else. *)
Theorem logins_bounded_by_callers (E : Env) (n : nat) (c : Client)
    (h : list event) (schedule : list nat) :
  exists outs : list Outcome,
    (length outs <= n)%nat /\
    exchanges (history (run E schedule (spawn n c h))) =
      reverse ((fun out => (login_request c, out)) <$> outs)
      ++ exchanges h.
Proof.
  assert (Hstart : bounded c h n (spawn n c h)).
  { split; [done|]. split; [apply length_replicate|].
    exists []. split; [simpl; lia|done]. }
  destruct (bounded_run E c h n schedule _ Hstart)
    as (_ & Hlen & outs & Hcount & Hex).
  exists outs. split; [|done].
  pose proof (started_count_le (tasks (run E schedule (spawn n c h)))). lia.
Qed.

(* ===================================================================== *)
(** ** Sequences of operations inside the validity window *)
(* ===================================================================== *)



